(** * NickScherbakov-dashboard: the reporting pipeline and the runner health check

    A shallow embedding of [generate_dashboard.py] and [runner-health-check.py].

    - [Py] holds the Python built-ins the two scripts lean on: [sorted] with a
      key and [reverse=True], [sum], [//], [str], the [:,] format and the
      insertion-ordered [defaultdict(int)].
    - [Dashboard] is [generate_dashboard.py]: the fetch loop, the two chart
      functions, the README and the HTML renderers, with the HTTP client as
      an oracle and the files written as explicit state.
    - [HealthCheck] is [runner-health-check.py].

    Integers are [Z] (Python ints are unbounded), strings are byte strings
    (the literals below are the UTF-8 bytes of the source's literals). *)

From Stdlib Require Import ZArith List String Ascii Bool Lia.
From Stdlib Require Import Sorted Permutation DecimalString.
Import ListNotations.

Local Open Scope string_scope.
Local Open Scope list_scope.
Local Open Scope Z_scope.

(* ================================================================== *)
(** ** Python built-ins *)
(* ================================================================== *)

Module Py.

Section Sorting.

Variable A : Type.
Variable key : A -> Z.

(** One step of a stable ascending insertion: [x] comes from the left of
    everything in [l], so it stops in front of the first element whose key
    is not smaller. *)
Fixpoint insert_by (x : A) (l : list A) : list A :=
  match l with
  | [] => [x]
  | y :: l' => if key x <=? key y then x :: y :: l' else y :: insert_by x l'
  end.

(** A stable ascending sort. CPython's [list.sort] is a stable merge sort;
    a stable sort's result is fixed by the keys and the input order, so the
    insertion sort computes the same list. *)
Fixpoint sort_stable (l : list A) : list A :=
  match l with
  | [] => []
  | x :: l' => insert_by x (sort_stable l')
  end.

(** [sorted(l, key=key, reverse=reverse)]. As in CPython's [list.sort], a
    reverse sort reverses the list, sorts it ascending and stable, and
    reverses the result, which keeps equal keys in their input order. *)
Definition sorted (reverse : bool) (l : list A) : list A :=
  if reverse then rev (sort_stable (rev l)) else sort_stable l.

(** [a] stands before [b] in [l] (at two different positions). *)
Definition Before (a b : A) (l : list A) : Prop :=
  exists p m q, l = p ++ a :: m ++ b :: q.

(** Descending by key: every element is followed by keys no larger. *)
Definition Descending (l : list A) : Prop :=
  StronglySorted (fun a b => key b <= key a) l.

Definition Ascending (l : list A) : Prop :=
  StronglySorted (fun a b => key a <= key b) l.

(** The elements of [l] whose key is [k], in the order of [l]. *)
Definition with_key (k : Z) (l : list A) : list A :=
  filter (fun a => key a =? k) l.

End Sorting.

Arguments insert_by {A}.
Arguments sort_stable {A}.
Arguments sorted {A}.
Arguments Before {A}.
Arguments Descending {A}.
Arguments Ascending {A}.
Arguments with_key {A}.

(** [l[:k]] for a limit [k >= 0]. *)
Definition slice_to {A : Type} (k : nat) (l : list A) : list A := firstn k l.

(** [sum(...)] over integers. *)
Definition sum (l : list Z) : Z := fold_left Z.add l 0.

(** [len(l)] as a Python int. *)
Definition len {A : Type} (l : list A) : Z := Z.of_nat (List.length l).

(** [a // b]: floor division, [ZeroDivisionError] ([None]) when [b] is 0. *)
Definition floordiv (a b : Z) : option Z :=
  if b =? 0 then None else Some (a / b).

(** [str(n)] and [f"{n}"]. *)
Definition str (n : Z) : string := NilZero.string_of_int (Z.to_int n).

(** Commas between groups of three digits, on the digits least significant
    first. *)
Fixpoint group3 (digits : list ascii) : list ascii :=
  match digits with
  | a :: b :: c :: ((_ :: _) as more) => a :: b :: c :: ","%char :: group3 more
  | _ => digits
  end.

(** [f"{n:,}"]: the decimal digits with thousands separators, a leading
    minus sign for a negative number. *)
Definition format_comma (n : Z) : string :=
  let digits := list_ascii_of_string (NilZero.string_of_uint (N.to_uint (Z.abs_N n))) in
  String.append (if n <? 0 then "-" else "")
                (string_of_list_ascii (rev (group3 (rev digits)))).

(** [s[:k]] on a string. *)
Definition str_slice_to (k : nat) (s : string) : string := substring 0 k s.

(** A [defaultdict(int)] with string keys: a Python dict keeps its keys in
    insertion order, so it is an association list with distinct keys. *)
Definition dict : Type := list (string * Z).

(** [d[k]] with the default factory [int]. *)
Fixpoint dict_get (k : string) (d : dict) : Z :=
  match d with
  | [] => 0
  | (k', v) :: d' => if String.eqb k' k then v else dict_get k d'
  end.

(** [d[k] = v]: an existing key keeps its place, a new key goes last. *)
Fixpoint dict_set (k : string) (v : Z) (d : dict) : dict :=
  match d with
  | [] => [(k, v)]
  | (k', v') :: d' =>
      if String.eqb k' k then (k', v) :: d' else (k', v') :: dict_set k v d'
  end.

(** [d[k] += 1]. *)
Definition dict_incr (d : dict) (k : string) : dict :=
  dict_set k (dict_get k d + 1) d.

(** [k in d], on the keys. *)
Definition has_key (k : string) (ks : list string) : bool :=
  existsb (String.eqb k) ks.

(** [d.items()], [d.keys()], [d.values()]. *)
Definition items (d : dict) : list (string * Z) := d.
Definition keys (d : dict) : list string := map fst d.
Definition values (d : dict) : list Z := map snd d.

(** The two tuples [zip] makes of a list of pairs passed with a star. *)
Definition unzip {A B : Type} (l : list (A * B)) : list A * list B :=
  (map fst l, map snd l).

End Py.


(* ================================================================== *)
(** ** generate_dashboard.py *)
(* ================================================================== *)

Module Dashboard.

(** *** Data *)

(** One entry of [repos_data]: the dict literal of lines 50-58. *)
Record Snapshot : Type := mkSnapshot {
  name : string;
  full_name : string;
  owner : string;
  stars : Z;
  language : string;
  created_at : string;
  updated_at : string
}.

(** The fields [get_github_data] reads off the JSON body of a repository:
    [language] is a string or [null]. *)
Record RepoJson : Type := mkRepoJson {
  json_name : string;
  json_full_name : string;
  json_owner_login : string;
  json_stargazers_count : Z;
  json_language : option string;
  json_created_at : string;
  json_updated_at : string
}.

(** What [response.json()] and the field look-ups give: the fields, or an
    exception with message [e] (no JSON, a missing key). *)
Inductive Body : Type :=
| Json (repo_data : RepoJson)
| BadBody (e : string).

(** What [requests.get] gives: a response with its status code, or an
    exception with message [e] (no connection, a timeout). *)
Inductive HttpResult : Type :=
| Response (status_code : Z) (body : Body)
| RequestError (e : string).

(** The data handed to the plotting backend for [charts/overview.png]:
    [ax1.hist] with 20 bins, [ax2.bar], [ax3.barh], [ax4.bar]; a panel whose
    [if] guard fails stays empty. *)
Record OverviewChart : Type := mkOverviewChart {
  ax1_hist : list Z;
  ax2_bar : option (list string * list Z);
  ax3_barh : list string * list Z;
  ax4_bar : option (list string * list Z)
}.

(** What a run writes: text files and the two figures. *)
Inductive File : Type :=
| Text (content : string)
| OverviewPng (chart : OverviewChart)
| LanguagesPng (bars : list string * list Z).

(** The files written so far, oldest first, each with its path. *)
Definition Files : Type := list (string * File).

Definition write_file (path : string) (f : File) (fs : Files) : Files :=
  fs ++ [(path, f)].

(** The double quote, for the HTML attributes. *)
Definition dq : string := String (ascii_of_nat 34) EmptyString.

(** *** The Fetcher: [get_github_data], lines 27-65 *)

Definition repos_to_track : list string :=
  [ "facebook/react";
    "microsoft/vscode";
    "google/tensorflow";
    "apple/swift";
    "netflix/zuul";
    "amazon/aws-sdk-js";
    "stripe/stripe-js";
    "twilio/twilio-python" ].

(** [x or 'Unknown']: [None] and the empty string are falsy. *)
Definition or_unknown (x : option string) : string :=
  match x with
  | Some (String _ _ as s) => s
  | _ => "Unknown"
  end.

(** The dict appended at lines 50-58. *)
Definition make_snapshot (repo_data : RepoJson) : Snapshot :=
  {| name := json_name repo_data;
     full_name := json_full_name repo_data;
     owner := json_owner_login repo_data;
     stars := json_stargazers_count repo_data;
     language := or_unknown (json_language repo_data);
     created_at := json_created_at repo_data;
     updated_at := json_updated_at repo_data |}.

Definition repo_url (repo_name : string) : string :=
  String.append "https://api.github.com/repos/" repo_name.

(** The state of the loop: [repos_data] and the lines printed. *)
Definition FetchState : Type := (list Snapshot * list string)%type.

(** One turn of the loop of lines 43-63, [requests_get] the HTTP client
    called on the URL. Every exception inside the [try] ends in the
    [except] branch, which prints and goes on. *)
Definition fetch_step (requests_get : string -> HttpResult)
    (st : FetchState) (repo_name : string) : FetchState :=
  let '(repos_data, out) := st in
  match requests_get (repo_url repo_name) with
  | Response status_code body =>
      if status_code =? 200 then
        match body with
        | Json repo_data => (repos_data ++ [make_snapshot repo_data], out)
        | BadBody e =>
            (repos_data,
             out ++ [String.concat "" ["Error processing "; repo_name; ": "; e]])
        end
      else
        (repos_data,
         out ++ [String.concat ""
                   ["Failed to get data for "; repo_name; ": "; Py.str status_code]])
  | RequestError e =>
      (repos_data,
       out ++ [String.concat "" ["Error processing "; repo_name; ": "; e]])
  end.

(** The loop over any list of identifiers. *)
Definition fetch_all (requests_get : string -> HttpResult)
    (repos : list string) : FetchState :=
  fold_left (fetch_step requests_get) repos ([], []).

Definition get_github_data (requests_get : string -> HttpResult) : FetchState :=
  fetch_all requests_get repos_to_track.

(** *** The aggregates *)

(** [sorted(repos_data, key=lambda x: x['stars'], reverse=True)[:k]], at
    lines 95, 146 and 295 with [k] 10, 5 and 10. *)
Definition top_repos (k : nat) (repos_data : list Snapshot) : list Snapshot :=
  Py.slice_to k (Py.sorted stars true repos_data).

(** The counting loops of lines 83-85, 103-105 and 120-122. *)
Definition count_by (field : Snapshot -> string) (repos_data : list Snapshot) : Py.dict :=
  fold_left (fun d repo => Py.dict_incr d (field repo)) repos_data [].

(** [sorted(d.items(), key=lambda x: x[1], reverse=True)[:k]], lines 87
    and 107 with [k] 8. *)
Definition top_counts (k : nat) (d : Py.dict) : list (string * Z) :=
  Py.slice_to k (Py.sorted snd true (Py.items d)).

Definition top_langs (repos_data : list Snapshot) : list (string * Z) :=
  top_counts 8 (count_by language repos_data).

Definition top_owners (repos_data : list Snapshot) : list (string * Z) :=
  top_counts 8 (count_by owner repos_data).

(** *** The charts *)

(** Line 96: a name longer than 15 characters is cut and marked. *)
Definition short_name (repo : Snapshot) : string :=
  if 15 <? Z.of_nat (String.length (name repo))
  then String.append (Py.str_slice_to 15 (name repo)) "..."
  else name repo.

(** Lines 88 and 108: the bars are drawn only for a non-empty ranking. *)
Definition bars_if_any (ranking : list (string * Z)) : option (list string * list Z) :=
  match ranking with
  | [] => None
  | _ => Some (Py.unzip ranking)
  end.

(** [generate_overview_chart], lines 67-116. *)
Definition generate_overview_chart (repos_data : list Snapshot) (fs : Files) : Files :=
  match repos_data with
  | [] => fs
  | _ =>
      let top := top_repos 10 repos_data in
      let names := map short_name top in
      let stars_count := map stars top in
      write_file "charts/overview.png"
        (OverviewPng
           {| ax1_hist := map stars repos_data;
              ax2_bar := bars_if_any (top_langs repos_data);
              ax3_barh := (rev names, rev stars_count);
              ax4_bar := bars_if_any (top_owners repos_data) |})
        fs
  end.

(** [generate_language_chart], lines 118-138. *)
Definition generate_language_chart (repos_data : list Snapshot) (fs : Files) : Files :=
  let languages := count_by language repos_data in
  match languages with
  | [] => fs
  | _ =>
      let langs := Py.keys languages in
      let counts := Py.values languages in
      let sorted_data := Py.sorted snd true (combine langs counts) in
      write_file "charts/languages.png" (LanguagesPng (Py.unzip sorted_data)) fs
  end.

(** *** The README: [update_readme], lines 140-176 *)

(** Lines 142-144. The division is the only step that can raise. *)
Definition readme_total_repos (repos_data : list Snapshot) : Z := Py.len repos_data.

Definition readme_total_stars (repos_data : list Snapshot) : Z :=
  Py.sum (map stars repos_data).

Definition readme_avg_stars (repos_data : list Snapshot) : option Z :=
  let total_repos := readme_total_repos repos_data in
  let total_stars := readme_total_stars repos_data in
  if 0 <? total_repos then Py.floordiv total_stars total_repos else Some 0.

(** The f-string of lines 148-168, its three fields already formatted. *)
Definition readme_header (total_repos total_stars avg_stars : string) : string :=
  String.concat "" [
    "# NickScherbakov-dashboard

## 📊 GitHub Repositories Market Dashboard

Monitoring GitHub repository market - tracking popular projects and technologies.

### 📈 Current Statistics
- **Tracked Repositories**: "; total_repos; "
- **Total Stars**: "; total_stars; "
- **Average Stars**: "; avg_stars; "

### 📊 Market Overview
![Market Overview](charts/overview.png)

### 🏷️ Popular Languages
![Languages](charts/languages.png)

### 🔝 Top 5 Repositories
| Repository | Owner | Stars | Language |
|------------|-------|-------|----------|
"
  ].

(** The f-string of line 171: one table row. *)
Definition readme_row (repo : Snapshot) : string :=
  String.concat "" [
    "| ["; name repo; "](https://github.com/"; full_name repo; ") | "; owner repo;
    " | ⭐ "; Py.format_comma (stars repo); " | "; language repo; " |
"
  ].

(** The f-string of line 173, [now] the formatted time of the run. *)
Definition readme_footer (now : string) : string :=
  String.concat "" [
    "
*Dashboard updates automatically every 6 hours. Last update: "; now; "*"
  ].

(** The three statistics as the README shows them. *)
Definition readme_stats (repos_data : list Snapshot) : option (string * string * string) :=
  match readme_avg_stars repos_data with
  | Some avg_stars =>
      Some (Py.str (readme_total_repos repos_data),
            Py.format_comma (readme_total_stars repos_data),
            Py.format_comma avg_stars)
  | None => None
  end.

(** The text written to [README.md]; [None] when an exception escapes. *)
Definition readme_content (repos_data : list Snapshot) (now : string) : option string :=
  match readme_stats repos_data with
  | Some (total_repos, total_stars, avg_stars) =>
      let top := top_repos 5 repos_data in
      Some (String.concat ""
              [ readme_header total_repos total_stars avg_stars;
                String.concat "" (map readme_row top);
                readme_footer now ])
  | None => None
  end.

Definition update_readme (repos_data : list Snapshot) (now : string) (fs : Files)
    : option Files :=
  match readme_content repos_data now with
  | Some content => Some (write_file "README.md" (Text content) fs)
  | None => None
  end.

(** *** The HTML page: [create_index_html], lines 178-317 *)

(** The expression of line 268: [repos_data] is truthy when non-empty. *)
Definition html_avg_stars (repos_data : list Snapshot) : option Z :=
  match repos_data with
  | [] => Some 0
  | _ => Py.floordiv (Py.sum (map stars repos_data)) (Py.len repos_data)
  end.

(** The three statistics as the page shows them: lines 260, 264, 268. *)
Definition html_stats (repos_data : list Snapshot) : option (string * string * string) :=
  match html_avg_stars repos_data with
  | Some avg_stars =>
      Some (Py.str (Py.len repos_data),
            Py.format_comma (Py.sum (map stars repos_data)),
            Py.format_comma avg_stars)
  | None => None
  end.

(** The f-string of lines 180-293, its three fields already formatted. *)
Definition html_header (tracked total_stars avg_stars : string) : string :=
  String.concat "" [
    "<!DOCTYPE html>
<html lang="; dq; "ru"; dq; ">
<head>
    <meta charset="; dq; "UTF-8"; dq; ">
    <meta name="; dq; "viewport"; dq; " content="; dq; "width=device-width, initial-scale=1.0"; dq; ">
    <title>NickScherbakov - GitHub Dashboard</title>
    <style>
        body {
            font-family: -apple-system, BlinkMacSystemFont, 'Segoe UI', Roboto, sans-serif;
            max-width: 1200px;
            margin: 0 auto;
            padding: 20px;
            background: linear-gradient(135deg, #667eea 0%, #764ba2 100%);
            min-height: 100vh;
        }
        .container {
            background: white;
            border-radius: 10px;
            padding: 30px;
            margin: 20px 0;
            box-shadow: 0 10px 30px rgba(0,0,0,0.1);
        }
        .header {
            text-align: center;
            margin-bottom: 30px;
        }
        .stats {
            display: grid;
            grid-template-columns: repeat(auto-fit, minmax(200px, 1fr));
            gap: 20px;
            margin: 30px 0;
        }
        .stat-card {
            background: #f8f9fa;
            padding: 20px;
            border-radius: 8px;
            text-align: center;
            border-left: 4px solid #667eea;
        }
        .chart-container {
            margin: 30px 0;
            text-align: center;
        }
        .chart-container img {
            max-width: 100%;
            height: auto;
            border-radius: 8px;
            box-shadow: 0 5px 15px rgba(0,0,0,0.1);
        }
        .repos-table {
            width: 100%;
            border-collapse: collapse;
            margin: 30px 0;
        }
        .repos-table th, .repos-table td {
            padding: 12px;
            text-align: left;
            border-bottom: 1px solid #ddd;
        }
        .repos-table th {
            background: #f8f9fa;
            font-weight: 600;
        }
        .update-time {
            text-align: center;
            color: #666;
            font-size: 14px;
            margin-top: 30px;
        }
    </style>
</head>
<body>
    <div class="; dq; "container"; dq; ">
        <div class="; dq; "header"; dq; ">
            <h1>🚀 NickScherbakov</h1>
            <p>GitHub Repositories Market Dashboard</p>
        </div>

        <div class="; dq; "stats"; dq; ">
            <div class="; dq; "stat-card"; dq; ">
                <h3>"; tracked; "</h3>
                <p>Tracked Repositories</p>
            </div>
            <div class="; dq; "stat-card"; dq; ">
                <h3>"; total_stars; "</h3>
                <p>Total Stars</p>
            </div>
            <div class="; dq; "stat-card"; dq; ">
                <h3>"; avg_stars; "</h3>
                <p>Average Stars</p>
            </div>
        </div>

        <div class="; dq; "chart-container"; dq; ">
            <h2>📊 Market Overview</h2>
            <img src="; dq; "charts/overview.png"; dq; " alt="; dq; "Market Overview Chart"; dq; ">
        </div>

        <div class="; dq; "chart-container"; dq; ">
            <h2>🏷️ Popular Languages</h2>
            <img src="; dq; "charts/languages.png"; dq; " alt="; dq; "Languages Chart"; dq; ">
        </div>

        <h2>🔝 Top Repositories</h2>
        <table class="; dq; "repos-table"; dq; ">
            <thead>
                <tr>
                    <th>Repository</th>
                    <th>Owner</th>
                    <th>Stars</th>
                    <th>Language</th>
                </tr>
            </thead>
            <tbody>"
  ].

(** The f-string of lines 297-303: one table row. *)
Definition html_row (repo : Snapshot) : string :=
  String.concat "" [
    "
                <tr>
                    <td><a href="; dq; "https://github.com/"; full_name repo; dq; " target="; dq; "_blank"; dq; ">"; name repo; "</a></td>
                    <td>"; owner repo; "</td>
                    <td>⭐ "; Py.format_comma (stars repo); "</td>
                    <td>"; language repo; "</td>
                </tr>"
  ].

(** The f-string of lines 305-314, [now] the formatted time of the run. *)
Definition html_footer (now : string) : string :=
  String.concat "" [
    "
            </tbody>
        </table>

        <div class="; dq; "update-time"; dq; ">
            📅 Last update: "; now; "
        </div>
    </div>
</body>
</html>"
  ].

(** The text written to [docs/index.html]; [None] when an exception
    escapes. *)
Definition html_content (repos_data : list Snapshot) (now : string) : option string :=
  match html_stats repos_data with
  | Some (tracked, total_stars, avg_stars) =>
      let top := top_repos 10 repos_data in
      Some (String.concat ""
              [ html_header tracked total_stars avg_stars;
                String.concat "" (map html_row top);
                html_footer now ])
  | None => None
  end.

Definition create_index_html (repos_data : list Snapshot) (now : string) (fs : Files)
    : option Files :=
  match html_content repos_data now with
  | Some content => Some (write_file "docs/index.html" (Text content) fs)
  | None => None
  end.

(** *** Vocabulary of the properties *)

(** A request succeeds when it returns status 200 and a body with the
    expected fields; [success] is that body. *)
Definition success (requests_get : string -> HttpResult) (repo_name : string)
    : option RepoJson :=
  match requests_get (repo_url repo_name) with
  | Response status_code (Json repo_data) =>
      if status_code =? 200 then Some repo_data else None
  | _ => None
  end.

Definition failed (requests_get : string -> HttpResult) (repo_name : string) : bool :=
  match success requests_get repo_name with
  | Some _ => false
  | None => true
  end.

(** The snapshot a successful identifier contributes. *)
Definition snapshot_of (requests_get : string -> HttpResult) (repo_name : string)
    : option Snapshot :=
  option_map make_snapshot (success requests_get repo_name).

(** The distinct labels of a list in the order each is first seen. *)
Fixpoint first_seen (labels : list string) : list string :=
  match labels with
  | [] => []
  | k :: labels' => k :: filter (fun k' => negb (String.eqb k' k)) (first_seen labels')
  end.

(** How many times a label occurs. *)
Definition occurrences (k : string) (labels : list string) : Z :=
  Z.of_nat (count_occ string_dec labels k).

(** A ranking of the labels [field] takes over [repos_data]: every entry
    carries the number of occurrences of its label, the counts descend, and
    entries of equal count stand in the order their labels are first seen. *)
Definition RankedByCount (field : Snapshot -> string) (repos_data : list Snapshot)
    (ranking : list (string * Z)) : Prop :=
  Py.Descending snd ranking /\
  (forall k c, In (k, c) ranking -> c = occurrences k (map field repos_data)) /\
  (forall e1 e2, snd e1 = snd e2 -> Py.Before e1 e2 ranking ->
     Py.Before (fst e1) (fst e2) (first_seen (map field repos_data))).

(** The table of the labels [field] takes over [repos_data]: the distinct
    labels in the order each is first seen, each with the number of
    snapshots that carry it. *)
Definition label_table (field : Snapshot -> string) (repos_data : list Snapshot)
    : list (string * Z) :=
  map (fun k => (k, occurrences k (map field repos_data)))
      (first_seen (map field repos_data)).

(** [ranking] is the top [k] of that table under a stable sort by count,
    largest first: its counts descend; it has [k] entries, or all of them
    when the table has fewer; it is drawn from the table, no entry left out
    having a larger count than one that is kept; and the entries of each
    count are the first ones of that count in the table, in the table's
    order. *)
Definition TopByCount (k : nat) (field : Snapshot -> string)
    (repos_data : list Snapshot) (ranking : list (string * Z)) : Prop :=
  let table := label_table field repos_data in
  Py.Descending snd ranking /\
  List.length ranking = Nat.min k (List.length table) /\
  (exists rest,
     Permutation (ranking ++ rest) table /\
     forall a b, In a ranking -> In b rest -> snd b <= snd a) /\
  (forall c, exists rest,
     Py.with_key snd c table = Py.with_key snd c ranking ++ rest).

(** *** Sample data *)

Definition sample_repo (repo_name : string) (stars : Z) : Snapshot :=
  {| name := repo_name; full_name := repo_name; owner := "octocat";
     stars := stars; language := "Python";
     created_at := "2020-01-01T00:00:00Z"; updated_at := "2024-01-01T00:00:00Z" |}.

Definition sample_three : list Snapshot :=
  [sample_repo "a" 100; sample_repo "b" 50; sample_repo "c" 200].

(** A body without a language. *)
Definition sample_json : RepoJson :=
  {| json_name := "repo"; json_full_name := "octocat/repo";
     json_owner_login := "octocat"; json_stargazers_count := 1;
     json_language := None;
     json_created_at := "2020-01-01T00:00:00Z";
     json_updated_at := "2024-01-01T00:00:00Z" |}.

(** A service that answers 404 for one identifier, 403 for another, drops
    the connection for a third and serves every other one. *)
Definition sample_service (url : string) : HttpResult :=
  if String.eqb url (repo_url "apple/swift") then Response 404 (BadBody "Not Found")
  else if String.eqb url (repo_url "netflix/zuul") then RequestError "Connection reset"
  else if String.eqb url (repo_url "stripe/stripe-js") then Response 403 (BadBody "Forbidden")
  else Response 200 (Json sample_json).

(** Two languages with one repository each, "Go" seen first. *)
Definition sample_tie : list Snapshot :=
  [ {| name := "x"; full_name := "o/x"; owner := "o"; stars := 7; language := "Go";
       created_at := "2021-01-01T00:00:00Z"; updated_at := "2024-01-01T00:00:00Z" |};
    sample_repo "a" 100 ].

(** *** The run: [main], lines 319-346 *)

(** The files and the printed lines after a run that starts with the files
    [fs]; [None] when an exception leaves [main]. None of the four stages
    catches what the plotting backend or the file system raises, so each
    stage asks [backend_ok] at the path of its file: [false] is a failing
    [plt] call or [open]. [now_readme] and [now_html] are the formatted
    times the two renderers read off the clock. *)
Definition main (requests_get : string -> HttpResult) (backend_ok : string -> bool)
    (now_readme now_html : string) (fs : Files) : option (Files * list string) :=
  let out := ["🚀 Starting dashboard generation...";
              "📊 Getting data from GitHub API..."] in
  let '(repos_data, printed) := get_github_data requests_get in
  let out := out ++ printed in
  match repos_data with
  | [] => Some (fs, out ++ ["❌ Failed to get data"])
  | _ =>
      let out := out ++ [String.concat ""
                           ["✅ Got data for "; Py.str (Py.len repos_data);
                            " repositories"]] in
      let out := out ++ ["📈 Generating charts..."] in
      if backend_ok "charts/overview.png" then
        let fs := generate_overview_chart repos_data fs in
        if backend_ok "charts/languages.png" then
          let fs := generate_language_chart repos_data fs in
          let out := out ++ ["📝 Updating README..."] in
          if backend_ok "README.md" then
            match update_readme repos_data now_readme fs with
            | None => None
            | Some fs =>
                let out := out ++ ["🌐 Creating HTML page..."] in
                if backend_ok "docs/index.html" then
                  match create_index_html repos_data now_html fs with
                  | None => None
                  | Some fs =>
                      Some (fs, out ++ ["🎉 Dashboard updated successfully!"])
                  end
                else None
            end
          else None
        else None
      else None
  end.

(** *** Vocabulary of the further properties *)

(** The line printed for an identifier whose request failed, by the kind
    of failure: the status of a response other than 200 (line 60), or the
    message of the exception raised while reading a 200 response or by the
    request itself (line 63). *)
Inductive FailureReport (repo_name : string) : HttpResult -> string -> Prop :=
| report_status (status_code : Z) (body : Body) :
    status_code <> 200 ->
    FailureReport repo_name (Response status_code body)
      (String.concat ""
         ["Failed to get data for "; repo_name; ": "; Py.str status_code])
| report_bad_body (e : string) :
    FailureReport repo_name (Response 200 (BadBody e))
      (String.concat "" ["Error processing "; repo_name; ": "; e])
| report_request_error (e : string) :
    FailureReport repo_name (RequestError e)
      (String.concat "" ["Error processing "; repo_name; ": "; e]).


(** A snapshot whose name has 24 characters. *)
Definition sample_long : Snapshot :=
  {| name := "awesome-machine-learning"; full_name := "o/awesome-machine-learning";
     owner := "o"; stars := 7; language := "Go";
     created_at := "2021-01-01T00:00:00Z"; updated_at := "2024-01-01T00:00:00Z" |}.

(** A service that fails every request. *)
Definition sample_outage (url : string) : HttpResult := RequestError "No route to host".

End Dashboard.

(* ================================================================== *)
(** ** runner-health-check.py *)
(* ================================================================== *)

Module HealthCheck.

(** [sys.version_info]: major, minor, micro. *)
Record VersionInfo : Type := mkVersion {
  major : Z;
  minor : Z;
  micro : Z
}.

(** What [subprocess.run([command, '--version'], timeout=5)] gives: a
    completed process, one of the two exceptions the [except] clause of
    line 49 names, or any other exception [e] (an [OSError] when the file
    cannot be run, a [UnicodeDecodeError] on its output). *)
Inductive RunResult : Type :=
| Completed (returncode : Z) (stdout : string)
| TimeoutExpired
| SubprocessError
| OtherException (e : string).

(** What [importlib.import_module(package_name)] gives: the module, with
    its [__version__] when it has one, an [ImportError], or any other
    exception [e] raised while the package is imported, which the [except]
    clause of line 34 does not name. *)
Inductive ImportResult : Type :=
| Imported (version : option string)
| ImportError
| ImportRaises (e : string).

(** The host as the checks see it. *)
Record Host : Type := mkHost {
  version_info : VersionInfo;
  import_module : string -> ImportResult;
  (** [shutil.which] finds the command *)
  which : string -> bool;
  run_version : string -> RunResult;
  (** [os.statvfs('.')]: [f_frsize] and [f_bavail], [None] for an [OSError] *)
  statvfs : option (Z * Z);
  (** [urlopen('https://api.github.com', timeout=10)] returns *)
  urlopen_ok : bool
}.

(** [check_python_version], lines 14-22. *)
Definition check_python_version (version : VersionInfo) : bool :=
  (3 <=? major version) && (7 <=? minor version).

(** [check_package], lines 24-36: [True] for a module that imports, with
    or without a [__version__], [False] for an [ImportError]; any other
    exception is not caught and leaves the function: [None]. *)
Definition check_package (h : Host) (package_name : string) : option bool :=
  match import_module h package_name with
  | Imported (Some _) => Some true
  | Imported None => Some true
  | ImportError => Some false
  | ImportRaises _ => None
  end.

(** [check_command], lines 38-54. A command that is found passes when its
    [--version] run completes with any return code, times out or raises a
    [SubprocessError]; any other exception of the run is not caught and
    leaves the function: [None]. *)
Definition check_command (h : Host) (command : string) : option bool :=
  if which h command then
    match run_version h command with
    | Completed returncode _ => if returncode =? 0 then Some true else Some true
    | TimeoutExpired => Some true
    | SubprocessError => Some true
    | OtherException _ => None
    end
  else Some false.

(** [check_disk_space], lines 56-71. [free_space / (1024**3) >= 10] on
    floats holds exactly when [free_space >= 10 * 1024**3]: the divisor is
    a power of two and 10 is a float. *)
Definition check_disk_space (h : Host) : bool :=
  match statvfs h with
  | Some (f_frsize, f_bavail) =>
      let free_space := f_frsize * f_bavail in
      10 * 1024 ^ 3 <=? free_space
  | None => false
  end.

(** [check_network], lines 73-82. *)
Definition check_network (h : Host) : bool := urlopen_ok h.

Definition required_packages : list string :=
  ["requests"; "matplotlib"; "seaborn"; "pandas"].

Definition required_commands : list string := ["git"; "pip"].

(** The two counters of [main]: [checks_passed] and [total_checks]. *)
Definition Tally : Type := (Z * Z)%type.

(** [total_checks += 1; if check: checks_passed += 1]. *)
Definition tally_check (t : Tally) (passed : bool) : Tally :=
  let '(checks_passed, total_checks) := t in
  let total_checks := total_checks + 1 in
  if passed then (checks_passed + 1, total_checks) else (checks_passed, total_checks).

(** The outcome of every individual check of one run. *)
Record Outcomes : Type := mkOutcomes {
  python_ok : bool;
  package_ok : string -> bool;
  command_ok : string -> bool;
  disk_ok : bool;
  network_ok : bool
}.

(** The counting of [main], lines 89-132, in the order of the script. *)
Definition tally_all (o : Outcomes) : Tally :=
  let t := (0, 0) in
  let t := tally_check t (python_ok o) in
  let t := fold_left (fun t package => tally_check t (package_ok o package))
                     required_packages t in
  let t := fold_left (fun t command => tally_check t (command_ok o command))
                     required_commands t in
  let t := tally_check t (disk_ok o) in
  let t := tally_check t (network_ok o) in
  t.

(** Lines 138-143: the argument of [sys.exit]. *)
Definition exit_status (o : Outcomes) : Z :=
  let '(checks_passed, total_checks) := tally_all o in
  if checks_passed =? total_checks then 0 else 1.

(** A check returned [True]; one that raised returned nothing. *)
Definition returned_true (result : option bool) : bool :=
  match result with
  | Some passed => passed
  | None => false
  end.

(** Which checks return [True] on a host. *)
Definition run_checks (h : Host) : Outcomes :=
  {| python_ok := check_python_version (version_info h);
     package_ok := fun package => returned_true (check_package h package);
     command_ok := fun command => returned_true (check_command h command);
     disk_ok := check_disk_space h;
     network_ok := check_network h |}.

(** One check inside [main] that may raise: the counters after it, or
    [None] when the check raises and the exception leaves [main]. *)
Definition tally_result (t : option Tally) (result : option bool) : option Tally :=
  match t with
  | Some t =>
      match result with
      | Some passed => Some (tally_check t passed)
      | None => None
      end
  | None => None
  end.

(** The counters when [main] reaches its summary on a host, lines 89-132;
    [None] when an exception ends the run before. *)
Definition main_tally (h : Host) : option Tally :=
  let t := (0, 0) in
  let t := Some (tally_check t (check_python_version (version_info h))) in
  let t := fold_left (fun t package => tally_result t (check_package h package))
                     required_packages t in
  let t := fold_left (fun t command => tally_result t (check_command h command))
                     required_commands t in
  match t with
  | Some t =>
      let t := tally_check t (check_disk_space h) in
      let t := tally_check t (check_network h) in
      Some t
  | None => None
  end.

(** [main], lines 84-143: the exit status of the process. [sys.exit] gives
    0 or 1 at the summary; an exception that leaves [main] ends the process
    with a traceback and status 1. *)
Definition main (h : Host) : Z :=
  match main_tally h with
  | Some (checks_passed, total_checks) =>
      if checks_passed =? total_checks then 0 else 1
  | None => 1
  end.

(** The individual results of a run, in the order they are counted. *)
Definition results (o : Outcomes) : list bool :=
  python_ok o
  :: map (package_ok o) required_packages
  ++ map (command_ok o) required_commands
  ++ [disk_ok o; network_ok o].

(** How many results are passes. *)
Fixpoint count_true (bs : list bool) : Z :=
  match bs with
  | [] => 0
  | b :: bs' => (if b then 1 else 0) + count_true bs'
  end.

(** The claim's reading of "at least 3.7": the pair (major, minor) compared
    with (3, 7) in lexicographic order. *)
Definition version_at_least_3_7 (version : VersionInfo) : bool :=
  (3 <? major version) || ((major version =? 3) && (7 <=? minor version)).

(** Sample runs: every check passes; only [pandas] is missing. *)
Definition all_pass : Outcomes :=
  {| python_ok := true; package_ok := fun _ => true; command_ok := fun _ => true;
     disk_ok := true; network_ok := true |}.

Definition pandas_missing : Outcomes :=
  {| python_ok := true;
     package_ok := fun package => negb (String.eqb package "pandas");
     command_ok := fun _ => true;
     disk_ok := true; network_ok := true |}.





End HealthCheck.

(* ================================================================== *)
(** ** Facts about the built-ins *)
(* ================================================================== *)

Module PyFacts.

Import Py.

Section SortingFacts.

Context {A : Type} (key : A -> Z).

Lemma StronglySorted_app_iff (R : A -> A -> Prop) (l1 l2 : list A) :
  StronglySorted R (l1 ++ l2) <->
  StronglySorted R l1 /\ StronglySorted R l2 /\
  (forall a b, In a l1 -> In b l2 -> R a b).
Proof.
  induction l1 as [|x l1 IH]; simpl.
  - split.
    + intros H; repeat split; [constructor | exact H | intros ? ? []].
    + intros (_ & H & _); exact H.
  - split.
    + intros H. apply StronglySorted_inv in H as [Hs Hx].
      apply IH in Hs as (H1 & H2 & H12).
      rewrite Forall_app in Hx. destruct Hx as [Hx1 Hx2].
      repeat split; [constructor; assumption | assumption |].
      intros a b [<- | Ha] Hb.
      * rewrite Forall_forall in Hx2. now apply Hx2.
      * now apply H12.
    + intros (H1 & H2 & H12).
      apply StronglySorted_inv in H1 as [H1 Hx].
      constructor.
      * apply IH; repeat split; auto.
      * rewrite Forall_app; split; [assumption |].
        rewrite Forall_forall; intros b Hb; apply H12; auto.
Qed.

Lemma StronglySorted_rev (R : A -> A -> Prop) (l : list A) :
  StronglySorted R l -> StronglySorted (fun a b => R b a) (rev l).
Proof.
  induction 1 as [|x l Hs IH Hx]; simpl.
  - constructor.
  - apply StronglySorted_app_iff; repeat split.
    + exact IH.
    + repeat constructor.
    + intros a b Ha [<- | []]. apply in_rev in Ha.
      rewrite Forall_forall in Hx. now apply Hx.
Qed.

Lemma StronglySorted_firstn (R : A -> A -> Prop) (k : nat) (l : list A) :
  StronglySorted R l -> StronglySorted R (firstn k l).
Proof.
  intros H. rewrite <- (firstn_skipn k l) in H.
  now apply StronglySorted_app_iff in H.
Qed.

Lemma In_slice_to (n : nat) (x : A) (l : list A) :
  In x (slice_to n l) -> In x l.
Proof.
  unfold slice_to. intros H.
  rewrite <- (firstn_skipn n l). apply in_or_app. now left.
Qed.

Lemma insert_by_perm (x : A) (l : list A) :
  Permutation (insert_by key x l) (x :: l).
Proof.
  induction l as [|y l IH]; simpl.
  - reflexivity.
  - destruct (key x <=? key y).
    + reflexivity.
    + rewrite IH. apply perm_swap.
Qed.

Lemma sort_stable_perm (l : list A) : Permutation (sort_stable key l) l.
Proof.
  induction l as [|x l IH]; simpl.
  - constructor.
  - rewrite insert_by_perm. now constructor.
Qed.

Lemma insert_by_ascending (x : A) (l : list A) :
  Ascending key l -> Ascending key (insert_by key x l).
Proof.
  unfold Ascending.
  induction 1 as [|y l Hs IH Hy]; simpl.
  - repeat constructor.
  - destruct (key x <=? key y) eqn:E.
    + apply Z.leb_le in E.
      constructor; [constructor; assumption |].
      constructor; [assumption |].
      eapply Forall_impl; [| exact Hy]. simpl; intros; lia.
    + apply Z.leb_gt in E.
      constructor; [assumption |].
      eapply Permutation_Forall.
      * symmetry. apply insert_by_perm.
      * constructor; [lia | assumption].
Qed.

Lemma sort_stable_ascending (l : list A) : Ascending key (sort_stable key l).
Proof.
  induction l as [|x l IH]; simpl.
  - constructor.
  - now apply insert_by_ascending.
Qed.

(** An inserted element only passes elements of a strictly smaller key, so
    no class of equal keys changes its order. *)
Lemma with_key_insert_by (k : Z) (x : A) (l : list A) :
  with_key key k (insert_by key x l) = with_key key k (x :: l).
Proof.
  unfold with_key.
  induction l as [|y l IH]; simpl; [reflexivity |].
  destruct (key x <=? key y) eqn:E; simpl; [reflexivity |].
  apply Z.leb_gt in E. rewrite IH. simpl.
  destruct (key y =? k) eqn:Ey; [| reflexivity].
  apply Z.eqb_eq in Ey.
  destruct (key x =? k) eqn:Ex; [| reflexivity].
  apply Z.eqb_eq in Ex. lia.
Qed.

Lemma with_key_sort_stable (k : Z) (l : list A) :
  with_key key k (sort_stable key l) = with_key key k l.
Proof.
  induction l as [|x l IH]; simpl; [reflexivity |].
  rewrite with_key_insert_by. unfold with_key in *. simpl.
  now rewrite IH.
Qed.

Lemma with_key_rev (k : Z) (l : list A) :
  with_key key k (rev l) = rev (with_key key k l).
Proof.
  unfold with_key.
  induction l as [|x l IH]; simpl; [reflexivity |].
  rewrite filter_app, IH. simpl.
  destruct (key x =? k); simpl; [reflexivity | apply app_nil_r].
Qed.

(** The three facts that fix the result of a reverse sort. *)
Lemma sorted_reverse_descending (l : list A) : Descending key (sorted key true l).
Proof.
  unfold Descending, sorted.
  apply (StronglySorted_rev (fun a b => key a <= key b)).
  apply sort_stable_ascending.
Qed.

Lemma sorted_reverse_perm (l : list A) : Permutation (sorted key true l) l.
Proof.
  unfold sorted.
  rewrite <- Permutation_rev, sort_stable_perm.
  symmetry. apply Permutation_rev.
Qed.

Lemma sorted_reverse_stable (k : Z) (l : list A) :
  with_key key k (sorted key true l) = with_key key k l.
Proof.
  unfold sorted.
  now rewrite with_key_rev, with_key_sort_stable, with_key_rev, rev_involutive.
Qed.

(** A list that descends by key and keeps every class of equal keys in a
    given order is unique: any stable reverse sort returns what [sorted]
    returns. *)
Lemma descending_stable_unique (l1 l2 : list A) :
  Descending key l1 -> Descending key l2 ->
  (forall k, with_key key k l1 = with_key key k l2) ->
  l1 = l2.
Proof.
  unfold Descending, with_key.
  intros H1. revert l2.
  induction H1 as [|x l1 Hs1 IH Hx]; intros l2 H2 Hk.
  - destruct l2 as [|y l2]; [reflexivity |].
    specialize (Hk (key y)). simpl in Hk. rewrite Z.eqb_refl in Hk. discriminate.
  - destruct H2 as [|y l2 Hs2 Hy].
    + specialize (Hk (key x)). simpl in Hk. rewrite Z.eqb_refl in Hk. discriminate.
    + assert (Hxy : key x <= key y).
      { pose proof (Hk (key x)) as E. simpl in E. rewrite Z.eqb_refl in E.
        destruct (key y =? key x) eqn:Ey; [apply Z.eqb_eq in Ey; lia |].
        assert (Hin : In x (filter (fun a => key a =? key x) l2))
          by (rewrite <- E; now left).
        apply filter_In in Hin as [Hin _].
        rewrite Forall_forall in Hy. now apply Hy. }
      assert (Hyx : key y <= key x).
      { pose proof (Hk (key y)) as E. simpl in E. rewrite Z.eqb_refl in E.
        destruct (key x =? key y) eqn:Ex; [apply Z.eqb_eq in Ex; lia |].
        assert (Hin : In y (filter (fun a => key a =? key y) l1))
          by (rewrite E; now left).
        apply filter_In in Hin as [Hin _].
        rewrite Forall_forall in Hx. now apply Hx. }
      assert (Exy : x = y).
      { pose proof (Hk (key x)) as E. simpl in E.
        rewrite Z.eqb_refl, (proj2 (Z.eqb_eq (key y) (key x))) in E by lia.
        now injection E. }
      subst y. f_equal. apply IH; [assumption |].
      intros k. specialize (Hk k). simpl in Hk.
      destruct (key x =? k); [now injection Hk | assumption].
Qed.

Lemma sorted_reverse_unique (l r : list A) :
  Descending key r ->
  (forall k, with_key key k r = with_key key k l) ->
  r = sorted key true l.
Proof.
  intros Hd Hk. apply descending_stable_unique.
  - exact Hd.
  - apply sorted_reverse_descending.
  - intros k. now rewrite sorted_reverse_stable.
Qed.

(** A descending list drawn from a descending list [s], dominating what it
    leaves out and taking every class of equal keys from the front of that
    class in [s], is a prefix of [s]. *)
Lemma descending_prefix_unique (s r rest : list A) :
  Descending key s -> Descending key r ->
  Permutation (r ++ rest) s ->
  (forall a b, In a r -> In b rest -> key b <= key a) ->
  (forall c, exists tail, with_key key c s = with_key key c r ++ tail) ->
  r = firstn (List.length r) s.
Proof.
  unfold Descending, with_key.
  intros Hs Hr. revert s Hs.
  induction Hr as [|x r Hr IH Hx]; intros s Hs Hperm Hdom Hcls; [reflexivity |].
  destruct Hs as [|y s Hs Hy].
  { apply Permutation_sym, Permutation_nil in Hperm. discriminate. }
  rewrite Forall_forall in Hx, Hy.
  assert (Hxy : key x <= key y).
  { assert (Hin : In x (y :: s))
      by (eapply Permutation_in; [exact Hperm | now left]).
    destruct Hin as [<- | Hin]; [lia | now apply Hy]. }
  assert (Hyx : key y <= key x).
  { assert (Hin : In y ((x :: r) ++ rest))
      by (eapply Permutation_in; [symmetry; exact Hperm | now left]).
    apply in_app_or in Hin as [[<- | Hin] | Hin].
    - lia.
    - now apply Hx.
    - apply Hdom; [now left | assumption]. }
  assert (E : x = y).
  { destruct (Hcls (key x)) as [tail Ht]. simpl in Ht.
    rewrite Z.eqb_refl, (proj2 (Z.eqb_eq (key y) (key x))) in Ht by lia.
    simpl in Ht. now injection Ht. }
  subst y. cbn [List.length firstn]. f_equal.
  apply IH.
  - exact Hs.
  - simpl in Hperm. now apply Permutation_cons_inv in Hperm.
  - intros a b Ha Hb. apply Hdom; [now right | assumption].
  - intros c. destruct (Hcls c) as [tail Ht]. simpl in Ht.
    exists tail. destruct (key x =? c); [now injection Ht | exact Ht].
Qed.

(** The cut of a reverse sort is the only list with these properties. *)
Lemma slice_sorted_unique (n : nat) (l r rest : list A) :
  Descending key r ->
  List.length r = Nat.min n (List.length l) ->
  Permutation (r ++ rest) l ->
  (forall a b, In a r -> In b rest -> key b <= key a) ->
  (forall c, exists tail, with_key key c l = with_key key c r ++ tail) ->
  r = slice_to n (sorted key true l).
Proof.
  intros Hr Hlen Hperm Hdom Hcls.
  pose proof (sorted_reverse_perm l) as Hsl.
  rewrite (descending_prefix_unique (sorted key true l) r rest).
  - rewrite Hlen. unfold slice_to.
    rewrite <- (Permutation_length Hsl).
    destruct (Nat.le_ge_cases n (List.length (sorted key true l))) as [H | H].
    + now rewrite Nat.min_l.
    + rewrite Nat.min_r by assumption.
      now rewrite firstn_all, firstn_all2.
  - apply sorted_reverse_descending.
  - exact Hr.
  - now rewrite Hperm.
  - exact Hdom.
  - intros c. rewrite sorted_reverse_stable. apply Hcls.
Qed.

(** [Before] through a prefix and through a filter. *)
Lemma Before_firstn (a b : A) (k : nat) (l : list A) :
  Before a b (firstn k l) -> Before a b l.
Proof.
  intros (p & m & q & E).
  exists p, m, (q ++ skipn k l).
  rewrite <- (firstn_skipn k l) at 1. rewrite E.
  now rewrite <- !app_assoc, <- !app_comm_cons, <- !app_assoc, <- app_comm_cons.
Qed.

Lemma Before_filter_intro (f : A -> bool) (a b : A) (l : list A) :
  f a = true -> f b = true -> Before a b l -> Before a b (filter f l).
Proof.
  intros Ha Hb (p & m & q & ->).
  exists (filter f p), (filter f m), (filter f q).
  rewrite filter_app. simpl. rewrite Ha, filter_app. simpl. now rewrite Hb.
Qed.

Lemma In_split_filter (f : A -> bool) (b : A) (l m q : list A) :
  filter f l = m ++ b :: q ->
  exists m' q', l = m' ++ b :: q' /\ filter f m' = m /\ filter f q' = q.
Proof.
  revert m. induction l as [|x l IH]; intros m E; simpl in E.
  - destruct m; discriminate.
  - destruct (f x) eqn:Ex.
    + destruct m as [|y m]; simpl in E; injection E as -> E.
      * exists [], l. simpl. auto.
      * destruct (IH _ E) as (m' & q' & -> & Hm & Hq).
        exists (y :: m'), q'. simpl. rewrite Ex, Hm. auto.
    + destruct (IH _ E) as (m' & q' & -> & Hm & Hq).
      exists (x :: m'), q'. simpl. rewrite Ex. auto.
Qed.

Lemma Before_filter_elim (f : A -> bool) (a b : A) (l : list A) :
  Before a b (filter f l) -> Before a b l.
Proof.
  intros (p & m & q & E).
  apply In_split_filter in E as (p' & r & -> & _ & Hr).
  apply In_split_filter in Hr as (m' & q' & -> & _ & _).
  now exists p', m', q'.
Qed.

(** Equal keys keep their input order under a reverse sort, also after a
    cut. *)
Lemma Before_sorted_ties (n : nat) (a b : A) (l : list A) :
  key a = key b ->
  Before a b (slice_to n (sorted key true l)) -> Before a b l.
Proof.
  intros Hk H. apply Before_firstn in H.
  apply (Before_filter_elim (fun x => key x =? key a)).
  change (Before a b (with_key key (key a) l)).
  rewrite <- sorted_reverse_stable.
  apply Before_filter_intro; [apply Z.eqb_refl | apply Z.eqb_eq; congruence | exact H].
Qed.

Lemma with_key_slice_prefix (n : nat) (k : Z) (l : list A) :
  exists rest,
    with_key key k l = with_key key k (slice_to n (sorted key true l)) ++ rest.
Proof.
  exists (with_key key k (skipn n (sorted key true l))).
  unfold slice_to, with_key. rewrite <- filter_app, firstn_skipn.
  symmetry. apply sorted_reverse_stable.
Qed.

(** What is cut off is dominated by what is kept. *)
Lemma slice_sorted_split (n : nat) (l : list A) :
  exists rest,
    Permutation (slice_to n (sorted key true l) ++ rest) l /\
    (forall a b, In a (slice_to n (sorted key true l)) -> In b rest -> key b <= key a).
Proof.
  exists (skipn n (sorted key true l)). unfold slice_to. split.
  - rewrite firstn_skipn. apply sorted_reverse_perm.
  - pose proof (sorted_reverse_descending l) as H.
    unfold Descending in H. rewrite <- (firstn_skipn n) in H.
    apply StronglySorted_app_iff in H as (_ & _ & H). exact H.
Qed.

Lemma slice_to_length (n : nat) (l : list A) :
  List.length (slice_to n (sorted key true l)) = Nat.min n (List.length l).
Proof.
  unfold slice_to. rewrite length_firstn.
  now rewrite (Permutation_length (sorted_reverse_perm l)).
Qed.

End SortingFacts.

End PyFacts.

Module PyDictFacts.

Import Py.

Lemma fold_add_shift (l : list Z) (a : Z) :
  fold_left Z.add l a = a + fold_left Z.add l 0.
Proof.
  revert a. induction l as [|x l IH]; intros a; simpl.
  - lia.
  - rewrite (IH (a + x)), (IH x). lia.
Qed.

Lemma sum_cons (x : Z) (l : list Z) : sum (x :: l) = x + sum l.
Proof. unfold sum. simpl. apply fold_add_shift. Qed.

Lemma sum_nil : sum [] = 0.
Proof. reflexivity. Qed.

Lemma dict_get_set (k k' : string) (v : Z) (d : dict) :
  dict_get k' (dict_set k v d) = if String.eqb k k' then v else dict_get k' d.
Proof.
  induction d as [|[k0 v0] d IH]; simpl.
  - destruct (String.eqb k k'); reflexivity.
  - destruct (String.eqb k0 k) eqn:E0; simpl.
    + apply String.eqb_eq in E0. subst k0.
      destruct (String.eqb k k'); reflexivity.
    + rewrite IH.
      destruct (String.eqb k0 k') eqn:E1; [| reflexivity].
      apply String.eqb_eq in E1. subst k0. now rewrite String.eqb_sym, E0.
Qed.

Lemma dict_get_incr (k k' : string) (d : dict) :
  dict_get k' (dict_incr d k) = dict_get k' d + (if String.eqb k k' then 1 else 0).
Proof.
  unfold dict_incr. rewrite dict_get_set.
  destruct (String.eqb k k') eqn:E; [| lia].
  apply String.eqb_eq in E. now subst.
Qed.

(** A store replaces the value read at the key, or adds one entry. *)
Lemma sum_values_set (k : string) (v : Z) (d : dict) :
  sum (values (dict_set k v d)) = sum (values d) - dict_get k d + v.
Proof.
  unfold values.
  induction d as [|[k0 v0] d IH]; simpl.
  - rewrite sum_cons, sum_nil. lia.
  - destruct (String.eqb k0 k); simpl; rewrite !sum_cons.
    + lia.
    + rewrite IH. lia.
Qed.

Lemma sum_values_incr (k : string) (d : dict) :
  sum (values (dict_incr d k)) = sum (values d) + 1.
Proof. unfold dict_incr. rewrite sum_values_set. lia. Qed.

Lemma has_key_In (k : string) (ks : list string) :
  has_key k ks = true <-> In k ks.
Proof.
  unfold has_key. rewrite existsb_exists. split.
  - intros (x & Hx & E). apply String.eqb_eq in E. now subst.
  - intros H. exists k. split; [assumption | apply String.eqb_refl].
Qed.

Lemma keys_set (k : string) (v : Z) (d : dict) :
  keys (dict_set k v d) = if has_key k (keys d) then keys d else keys d ++ [k].
Proof.
  unfold keys, has_key.
  induction d as [|[k0 v0] d IH]; simpl; [reflexivity |].
  rewrite (String.eqb_sym k k0).
  destruct (String.eqb k0 k); simpl; [reflexivity |].
  rewrite IH. now destruct (existsb (String.eqb k) (map fst d)).
Qed.

Lemma keys_incr (k : string) (d : dict) :
  keys (dict_incr d k) = if has_key k (keys d) then keys d else keys d ++ [k].
Proof. apply keys_set. Qed.

(** With distinct keys an entry holds what a look-up reads. *)
Lemma dict_get_In (k : string) (v : Z) (d : dict) :
  NoDup (keys d) -> In (k, v) d -> dict_get k d = v.
Proof.
  unfold keys.
  induction d as [|[k0 v0] d IH]; simpl; intros Hnd Hin; [contradiction |].
  inversion Hnd as [|? ? Hnotin Hnd']; subst.
  destruct Hin as [E | Hin].
  - injection E as -> ->. now rewrite String.eqb_refl.
  - destruct (String.eqb k0 k) eqn:E0.
    + apply String.eqb_eq in E0. subst k0.
      exfalso. apply Hnotin. now apply (in_map fst) in Hin.
    + now apply IH.
Qed.

End PyDictFacts.

(* ================================================================== *)
(** ** The reporting pipeline *)
(* ================================================================== *)

Module DashboardFacts.

Import Py PyFacts PyDictFacts Dashboard.

(** *** The frequency tables *)

Section Counting.

Variable field : Snapshot -> string.

Lemma count_loop_sum (repos_data : list Snapshot) (d : dict) :
  sum (values (fold_left (fun d repo => dict_incr d (field repo)) repos_data d))
  = sum (values d) + len repos_data.
Proof.
  unfold len. revert d.
  induction repos_data as [|repo l IH]; intros d.
  - simpl. lia.
  - cbn [fold_left List.length]. rewrite IH, sum_values_incr. lia.
Qed.

Lemma count_loop_get (k : string) (repos_data : list Snapshot) (d : dict) :
  dict_get k (fold_left (fun d repo => dict_incr d (field repo)) repos_data d)
  = dict_get k d + occurrences k (map field repos_data).
Proof.
  unfold occurrences. revert d.
  induction repos_data as [|repo l IH]; intros d.
  - simpl. lia.
  - cbn [fold_left map]. rewrite IH, dict_get_incr. simpl count_occ.
    destruct (string_dec (field repo) k) as [-> | Hne].
    + rewrite String.eqb_refl. lia.
    + apply String.eqb_neq in Hne. rewrite Hne. lia.
Qed.

Lemma filter_twice (f g : string -> bool) (l : list string) :
  filter f (filter g l) = filter (fun x => g x && f x) l.
Proof.
  induction l as [|x l IH]; simpl; [reflexivity |].
  destruct (g x); simpl; [destruct (f x) |]; now rewrite IH.
Qed.

(** The keys of the table: those it had, then the new labels as they are
    first seen. *)
Lemma count_loop_keys (repos_data : list Snapshot) (d : dict) :
  keys (fold_left (fun d repo => dict_incr d (field repo)) repos_data d)
  = keys d ++ filter (fun k => negb (has_key k (keys d)))
                     (first_seen (map field repos_data)).
Proof.
  revert d.
  induction repos_data as [|repo l IH]; intros d.
  - simpl. now rewrite app_nil_r.
  - cbn [fold_left map first_seen]. rewrite IH, keys_incr.
    set (k := field repo). set (fs := first_seen (map field l)).
    cbn [filter].
    destruct (has_key k (keys d)) eqn:Hk; cbn [negb].
    + f_equal. rewrite filter_twice. apply filter_ext_in. intros x _.
      destruct (negb (String.eqb x k)) eqn:E; [reflexivity |].
      apply negb_false_iff, String.eqb_eq in E. subst x. now rewrite Hk.
    + rewrite <- app_assoc. cbn [app]. do 2 f_equal.
      rewrite filter_twice. apply filter_ext. intros x.
      unfold has_key. rewrite existsb_app. simpl.
      rewrite orb_false_r, negb_orb. apply andb_comm.
Qed.

Lemma first_seen_NoDup (labels : list string) : NoDup (first_seen labels).
Proof.
  induction labels as [|k l IH]; simpl; constructor.
  - rewrite filter_In. intros [_ H]. now rewrite String.eqb_refl in H.
  - now apply NoDup_filter.
Qed.

Lemma count_by_keys (repos_data : list Snapshot) :
  keys (count_by field repos_data) = first_seen (map field repos_data).
Proof.
  unfold count_by. rewrite count_loop_keys. simpl.
  induction (first_seen (map field repos_data)) as [|x l IH]; simpl; congruence.
Qed.

Lemma count_by_entry (k : string) (c : Z) (repos_data : list Snapshot) :
  In (k, c) (count_by field repos_data) -> c = occurrences k (map field repos_data).
Proof.
  intros Hin. apply dict_get_In in Hin.
  - unfold count_by in Hin. rewrite count_loop_get in Hin. simpl in Hin. lia.
  - rewrite count_by_keys. apply first_seen_NoDup.
Qed.

Lemma Before_map {X Y : Type} (f : X -> Y) (a b : X) (l : list X) :
  Before a b l -> Before (f a) (f b) (map f l).
Proof.
  intros (p & m & q & ->). exists (map f p), (map f m), (map f q).
  now rewrite map_app, map_cons, map_app, map_cons.
Qed.

Lemma top_counts_ranked (n : nat) (repos_data : list Snapshot) :
  RankedByCount field repos_data (top_counts n (count_by field repos_data)).
Proof.
  unfold RankedByCount, top_counts, items. repeat split.
  - apply StronglySorted_firstn. apply sorted_reverse_descending.
  - intros k c Hin. apply count_by_entry.
    apply In_slice_to in Hin.
    eapply Permutation_in; [apply sorted_reverse_perm | exact Hin].
  - intros e1 e2 Heq Hb.
    rewrite <- count_by_keys. unfold keys. apply Before_map.
    now apply (Before_sorted_ties snd n).
Qed.

(** The table is the distinct labels in first-seen order with their
    numbers of occurrences. *)
Lemma entries_from_keys (f : string -> Z) (d : dict) :
  (forall k c, In (k, c) d -> c = f k) ->
  d = map (fun k => (k, f k)) (map fst d).
Proof.
  induction d as [|[k c] d IH]; intros H; [reflexivity |].
  cbn [map fst]. rewrite <- (H k c) by now left.
  f_equal. apply IH. intros k' c' Hin. apply H. now right.
Qed.

Lemma count_by_label_table (repos_data : list Snapshot) :
  count_by field repos_data = label_table field repos_data.
Proof.
  unfold label_table. rewrite <- count_by_keys. unfold keys.
  apply entries_from_keys. intros k c. apply count_by_entry.
Qed.

Lemma top_counts_top (n : nat) (repos_data : list Snapshot) :
  TopByCount n field repos_data (top_counts n (count_by field repos_data)).
Proof.
  unfold TopByCount, top_counts, items. rewrite <- count_by_label_table.
  repeat apply conj.
  - apply StronglySorted_firstn, sorted_reverse_descending.
  - apply slice_to_length.
  - apply slice_sorted_split.
  - intros c. apply with_key_slice_prefix.
Qed.

Lemma top_counts_only (n : nat) (repos_data : list Snapshot)
    (ranking : list (string * Z)) :
  TopByCount n field repos_data ranking ->
  ranking = top_counts n (count_by field repos_data).
Proof.
  unfold TopByCount, top_counts, items. rewrite <- count_by_label_table.
  intros (Hdesc & Hlen & (rest & Hperm & Hdom) & Hcls).
  now apply (slice_sorted_unique snd n _ ranking rest).
Qed.

End Counting.

(** C8: the values of the language table sum to the number of snapshots,
    for every input list. Each turn of the counting loop adds one to one
    entry, so the table built at lines 83-85 and 120-122 holds one count per
    snapshot. *)
Theorem language_counts_sum_to_total (repos_data : list Snapshot) :
  Py.sum (Py.values (count_by language repos_data)) = Py.len repos_data.
Proof.
  unfold count_by. rewrite count_loop_sum. reflexivity.
Qed.

(** C7: for every input list, the language ranking and the owner ranking of
    the overview chart are the top eight of the frequency table under a
    stable sort by count. The table lists the distinct languages (owners)
    in the order each first appears in the input, each with the number of
    snapshots that carry it. The ranking's counts descend; it has eight
    entries, or the whole table when there are fewer labels; no entry left
    out has a larger count than one that is kept; the entries of each count
    are the first ones of that count in the table, so entries of equal
    count stand in first-seen order; and no other list has these
    properties, so the ranking is fixed by the input. *)
Theorem top_langs_owners_ranked (repos_data : list Snapshot) :
  (RankedByCount language repos_data (top_langs repos_data) /\
   TopByCount 8 language repos_data (top_langs repos_data) /\
   (forall ranking, TopByCount 8 language repos_data ranking ->
                    ranking = top_langs repos_data)) /\
  (RankedByCount owner repos_data (top_owners repos_data) /\
   TopByCount 8 owner repos_data (top_owners repos_data) /\
   (forall ranking, TopByCount 8 owner repos_data ranking ->
                    ranking = top_owners repos_data)).
Proof.
  split; (split; [apply top_counts_ranked |]);
    (split; [apply top_counts_top | intros ranking; apply top_counts_only]).
Qed.

Lemma top_langs_owners_sample :
  Before "Go" "Python" (first_seen (map language sample_tie)) /\
  [("Go", 1); ("Python", 1)] = top_langs sample_tie.
Proof.
  destruct (top_langs_owners_ranked sample_tie) as [(Hranked & _ & Honly) _].
  split.
  - destruct Hranked as (_ & _ & Hties).
    apply (Hties ("Go", 1) ("Python", 1)).
    + reflexivity.
    + exists [], [], []. reflexivity.
  - apply Honly. unfold TopByCount.
    change (label_table language sample_tie) with [("Go", 1); ("Python", 1)].
    repeat apply conj.
    + repeat constructor; simpl; lia.
    + reflexivity.
    + exists []. split; [rewrite app_nil_r; reflexivity | intros a b _ []].
    + intros c. exists []. now rewrite app_nil_r.
Defined.

(** *** The ranking by stars *)

(** C1: for every input list and every limit [k], the ranking by stars
    (lines 95, 146, 295) is sorted by star count, largest first; it is
    drawn from the input, the snapshots left out having no more stars than
    the ones kept; the snapshots of each star count appear in it in their
    input order, as a prefix of that count's snapshots in the input, so two
    snapshots of equal stars keep their relative order; and its length is
    [min k (length of the input)]. Inputs with star counts 100, 50, 200
    and limit 2 give the star counts 200, 100. *)
Theorem top_repos_ranking (k : nat) (repos_data : list Snapshot) :
  let top := top_repos k repos_data in
  Descending stars top /\
  (exists rest,
     Permutation (top ++ rest) repos_data /\
     forall a b, In a top -> In b rest -> stars b <= stars a) /\
  (forall s, exists rest, with_key stars s repos_data = with_key stars s top ++ rest) /\
  (forall a b, stars a = stars b -> Before a b top -> Before a b repos_data) /\
  List.length top = Nat.min k (List.length repos_data) /\
  (forall l, map stars l = [100; 50; 200] -> map stars (top_repos 2 l) = [200; 100]).
Proof.
  cbv zeta. unfold top_repos. repeat split.
  - apply StronglySorted_firstn, sorted_reverse_descending.
  - apply slice_sorted_split.
  - intros s. apply with_key_slice_prefix.
  - intros a b. apply Before_sorted_ties.
  - apply slice_to_length.
  - intros [|r1 [|r2 [|r3 [|r4 l]]]] H; try discriminate H.
    destruct r1, r2, r3. simpl in H. injection H as -> -> ->. reflexivity.
Qed.

Lemma top_repos_ranking_sample :
  map stars (top_repos 2 sample_three) = [200; 100].
Proof.
  apply (top_repos_ranking 0 []). reflexivity.
Defined.

(** *** The summary statistics *)

Lemma len_pos_iff {X : Type} (l : list X) : (0 <? len l) = negb (len l =? 0).
Proof.
  destruct (Z.ltb_spec 0 (len l)), (Z.eqb_spec (len l) 0);
    try reflexivity; unfold len in *; lia.
Qed.

Lemma readme_avg_stars_eq (repos_data : list Snapshot) :
  readme_avg_stars repos_data =
  Some (if len repos_data =? 0 then 0
        else sum (map stars repos_data) / len repos_data).
Proof.
  unfold readme_avg_stars, readme_total_repos, readme_total_stars, floordiv.
  rewrite len_pos_iff. now destruct (len repos_data =? 0).
Qed.

Lemma html_avg_stars_eq (repos_data : list Snapshot) :
  html_avg_stars repos_data =
  Some (if len repos_data =? 0 then 0
        else sum (map stars repos_data) / len repos_data).
Proof.
  unfold html_avg_stars, floordiv.
  destruct repos_data as [|r l]; [reflexivity |].
  now destruct (len (r :: l) =? 0) eqn:E.
Qed.

(** C2: for every input list, the average shown in the README (line 144)
    and on the HTML page (line 268) is 0 for the empty list and otherwise
    the quotient [total // count], which is the floor of total/count: the
    integer [avg] with [avg * count <= total < (avg + 1) * count]. Both
    documents show it through the [:,] format. *)
Theorem average_stars_is_floor (repos_data : list Snapshot) :
  let total := Py.sum (map stars repos_data) in
  let count := Py.len repos_data in
  let avg := if count =? 0 then 0 else total / count in
  readme_avg_stars repos_data = Some avg /\
  html_avg_stars repos_data = Some avg /\
  (exists tracked shown_total,
     readme_stats repos_data = Some (tracked, shown_total, Py.format_comma avg)) /\
  (exists tracked shown_total,
     html_stats repos_data = Some (tracked, shown_total, Py.format_comma avg)) /\
  (count <> 0 -> avg * count <= total < (avg + 1) * count) /\
  (count = 0 -> avg = 0).
Proof.
  cbv zeta.
  split; [apply readme_avg_stars_eq |].
  split; [apply html_avg_stars_eq |].
  split; [unfold readme_stats; rewrite readme_avg_stars_eq; eauto |].
  split; [unfold html_stats; rewrite html_avg_stars_eq; eauto |].
  split.
  - intros Hne.
    assert (Hpos : 0 < len repos_data) by (unfold len in *; lia).
    apply Z.eqb_neq in Hne. rewrite Hne, !(Z.mul_comm _ (len repos_data)).
    split; [now apply Z.mul_div_le | now apply Z.mul_succ_div_gt].
  - intros ->. reflexivity.
Qed.

Lemma average_stars_sample :
  readme_avg_stars sample_three = Some 116 /\ 116 * 3 <= 350 < (116 + 1) * 3.
Proof.
  destruct (average_stars_is_floor sample_three) as (Hreadme & _ & _ & _ & Hfloor & _).
  split; [exact Hreadme | apply Hfloor; discriminate].
Defined.

(** C10: for every input list, the README and the HTML page show the same
    three statistics (the count, the total of the stars and their average),
    each document filling its own template with them; neither renderer
    raises. *)
Theorem readme_and_html_stats_agree (repos_data : list Snapshot) (now : string) :
  readme_stats repos_data = html_stats repos_data /\
  exists tracked total avg,
    readme_stats repos_data = Some (tracked, total, avg) /\
    tracked = Py.str (Py.len repos_data) /\
    total = Py.format_comma (Py.sum (map stars repos_data)) /\
    readme_content repos_data now =
      Some (String.concat ""
              [ readme_header tracked total avg;
                String.concat "" (map readme_row (top_repos 5 repos_data));
                readme_footer now ]) /\
    html_content repos_data now =
      Some (String.concat ""
              [ html_header tracked total avg;
                String.concat "" (map html_row (top_repos 10 repos_data));
                html_footer now ]).
Proof.
  assert (E : readme_stats repos_data = html_stats repos_data).
  { unfold readme_stats, html_stats.
    rewrite readme_avg_stars_eq, html_avg_stars_eq. reflexivity. }
  split; [exact E |].
  unfold readme_content, html_content. rewrite <- E.
  unfold readme_stats. rewrite readme_avg_stars_eq.
  do 3 eexists. repeat split; reflexivity.
Qed.

(** C4: on the empty list neither chart function writes a file, and both
    renderers return without raising: the README and the page are written
    with 0 repositories, 0 total stars, 0 average stars and no table row. *)
Theorem empty_input_renders_zeros (now : string) (fs : Files) :
  generate_overview_chart [] fs = fs /\
  generate_language_chart [] fs = fs /\
  readme_avg_stars [] = Some 0 /\
  html_avg_stars [] = Some 0 /\
  top_repos 5 [] = [] /\
  top_repos 10 [] = [] /\
  update_readme [] now fs =
    Some (write_file "README.md"
            (Text (String.concat "" [readme_header "0" "0" "0"; ""; readme_footer now]))
            fs) /\
  create_index_html [] now fs =
    Some (write_file "docs/index.html"
            (Text (String.concat "" [html_header "0" "0" "0"; ""; html_footer now]))
            fs).
Proof.
  (* the early return of line 70, and the empty table of line 124 *)
  split; [reflexivity |].
  split; [unfold generate_language_chart, count_by; reflexivity |].
  (* the guards of lines 144 and 268 keep the division from running *)
  split; [unfold readme_avg_stars; reflexivity |].
  split; [reflexivity |].
  split; [reflexivity |].
  split; [reflexivity |].
  split.
  - unfold update_readme, readme_content, readme_stats, readme_avg_stars.
    reflexivity.
  - unfold create_index_html, html_content, html_stats, html_avg_stars.
    reflexivity.
Qed.

(** *** The Fetcher *)

Section Fetching.

Variable requests_get : string -> HttpResult.

(** What one turn of the loop does, by the outcome of the request. *)
Lemma fetch_step_success (st : FetchState) (repo_name : string) (repo_data : RepoJson) :
  success requests_get repo_name = Some repo_data ->
  fetch_step requests_get st repo_name = (fst st ++ [make_snapshot repo_data], snd st).
Proof.
  unfold success, fetch_step. destruct st as [acc out]. simpl.
  destruct (requests_get (repo_url repo_name)) as [code [r | e] | e];
    try discriminate.
  destruct (code =? 200); [| discriminate].
  now intros [= ->].
Qed.

Lemma fetch_step_failure (st : FetchState) (repo_name : string) :
  success requests_get repo_name = None ->
  exists line, fetch_step requests_get st repo_name = (fst st, snd st ++ [line]).
Proof.
  unfold success, fetch_step. destruct st as [acc out]. simpl.
  destruct (requests_get (repo_url repo_name)) as [code [r | e] | e];
    [destruct (code =? 200); [discriminate |] | destruct (code =? 200) | ];
    intros _; eexists; reflexivity.
Qed.

(** The two cases of a turn, with the state rewritten accordingly. *)
Ltac fetch_cases st r :=
  let repo_data := fresh "repo_data" in
  let line := fresh "line" in
  let E := fresh "E" in
  destruct (success requests_get r) as [repo_data |] eqn:E;
  [ rewrite (fetch_step_success st r repo_data E)
  | destruct (fetch_step_failure st r E) as [line ->] ].

(** The loop from any state: the snapshots of the successes are appended
    in order, and one line is printed per failure. *)
Lemma fetch_loop_snapshots (repos : list string) (st : FetchState) :
  map Some (fst (fold_left (fetch_step requests_get) repos st)) =
  map Some (fst st) ++
  map (snapshot_of requests_get)
      (filter (fun r => negb (failed requests_get r)) repos).
Proof.
  revert st. induction repos as [|r repos IH]; intros st.
  - simpl. now rewrite app_nil_r.
  - cbn [fold_left filter]. rewrite IH. unfold failed, snapshot_of.
    fetch_cases st r; cbn [negb fst map].
    + rewrite map_app, <- app_assoc, E. reflexivity.
    + reflexivity.
Qed.

Lemma fetch_loop_printed (repos : list string) (st : FetchState) :
  List.length (snd (fold_left (fetch_step requests_get) repos st)) =
  (List.length (snd st) + List.length (filter (failed requests_get) repos))%nat.
Proof.
  revert st. induction repos as [|r repos IH]; intros st.
  - simpl. lia.
  - cbn [fold_left filter]. rewrite IH. unfold failed.
    fetch_cases st r; cbn [snd]; [reflexivity |].
    rewrite length_app. simpl. lia.
Qed.

Lemma filter_split_length {X : Type} (f : X -> bool) (l : list X) :
  (List.length (filter (fun x => negb (f x)) l) + List.length (filter f l)
   = List.length l)%nat.
Proof.
  induction l as [|x l IH]; simpl; [reflexivity |].
  destruct (f x); simpl; lia.
Qed.

Lemma filter_nil_iff {X : Type} (f : X -> bool) (l : list X) :
  filter (fun x => negb (f x)) l = [] <-> forall x, In x l -> f x = true.
Proof.
  induction l as [|x l IH]; simpl.
  - split; [intros _ ? [] | reflexivity].
  - destruct (f x) eqn:E; simpl.
    + rewrite IH. split.
      * intros H y [<- | Hy]; auto.
      * intros H y Hy. apply H. now right.
    + split; [discriminate |].
      intros H. specialize (H x (or_introl eq_refl)). congruence.
Qed.

(** Every turn keeps a property that holds of every snapshot built. *)
Lemma fetch_loop_Forall (P : Snapshot -> Prop) (repos : list string) (st : FetchState) :
  (forall repo_data, P (make_snapshot repo_data)) ->
  Forall P (fst st) ->
  Forall P (fst (fold_left (fetch_step requests_get) repos st)).
Proof.
  intros Hmk. revert st. induction repos as [|r repos IH]; intros st Hst.
  - exact Hst.
  - cbn [fold_left]. apply IH.
    fetch_cases st r; cbn [fst]; [| exact Hst].
    apply Forall_app. split; [assumption | constructor; [apply Hmk | constructor]].
Qed.

End Fetching.

(** C3: for every sequence of identifiers and every outcome of the
    requests, the Fetcher returns the snapshots of the identifiers whose
    request succeeded, one each, in the order these identifiers have in the
    input; a failure prints one line and the loop goes on, so successes and
    failures add up to the whole input. With 8 identifiers of which 3 fail
    it returns 5 snapshots, and it returns the empty list only if every
    request failed. [get_github_data] is this loop on the fixed list of 8. *)
Theorem fetcher_keeps_successes_in_order
    (requests_get : string -> HttpResult) (repos : list string) :
  let result := fst (fetch_all requests_get repos) in
  let printed := snd (fetch_all requests_get repos) in
  map Some result =
    map (snapshot_of requests_get)
        (filter (fun r => negb (failed requests_get r)) repos) /\
  (List.length result + List.length (filter (failed requests_get) repos)
   = List.length repos)%nat /\
  List.length printed = List.length (filter (failed requests_get) repos) /\
  (List.length repos = 8%nat ->
   List.length (filter (failed requests_get) repos) = 3%nat ->
   List.length result = 5%nat) /\
  (result = [] <-> forall r, In r repos -> failed requests_get r = true) /\
  get_github_data requests_get = fetch_all requests_get repos_to_track /\
  List.length repos_to_track = 8%nat.
Proof.
  cbv zeta. unfold fetch_all.
  pose proof (fetch_loop_snapshots requests_get repos ([], [])) as Hs.
  cbn [fst map app] in Hs.
  assert (Hlen : (List.length (fst (fold_left (fetch_step requests_get) repos ([], [])))
                  + List.length (filter (failed requests_get) repos)
                  = List.length repos)%nat).
  { rewrite <- (filter_split_length (failed requests_get) repos).
    f_equal. rewrite <- (length_map Some), Hs. apply length_map. }
  split; [exact Hs |]. split; [exact Hlen |]. split.
  { rewrite fetch_loop_printed. reflexivity. }
  split; [lia |]. split; [| split; reflexivity].
  rewrite <- filter_nil_iff. split.
  - intros E. rewrite E in Hs. simpl in Hs.
    symmetry in Hs. now apply map_eq_nil in Hs.
  - intros E. rewrite E in Hs. simpl in Hs. now apply map_eq_nil in Hs.
Qed.

Lemma fetcher_three_of_eight_fail :
  List.length (fst (get_github_data sample_service)) = 5%nat.
Proof.
  destruct (fetcher_keeps_successes_in_order sample_service repos_to_track)
    as (_ & _ & _ & Hfive & _).
  apply Hfive; reflexivity.
Defined.

(** *** The language label *)

Lemma or_unknown_nonempty (x : option string) : or_unknown x <> "".
Proof. destruct x as [[|c s] |]; discriminate. Qed.

Lemma first_seen_In (k : string) (labels : list string) :
  In k (first_seen labels) -> In k labels.
Proof.
  induction labels as [|x l IH]; simpl; [tauto |].
  intros [-> | H]; [now left |].
  apply filter_In in H. right. tauto.
Qed.

(** C9: every snapshot the Fetcher builds has a non-empty language: when the
    remote language is [null] or the empty string the snapshot carries
    "Unknown", otherwise the remote label. The later stages only read the
    list, so every snapshot of a ranking and every key of the language
    table is non-empty as well. *)
Theorem language_never_empty
    (requests_get : string -> HttpResult) (repos : list string) :
  let repos_data := fst (fetch_all requests_get repos) in
  Forall (fun s => language s <> "") repos_data /\
  (forall r, json_language r = None \/ json_language r = Some "" ->
             language (make_snapshot r) = "Unknown") /\
  (forall r s, json_language r = Some s -> s <> "" ->
               language (make_snapshot r) = s) /\
  (forall k, Forall (fun s => language s <> "") (top_repos k repos_data)) /\
  Forall (fun k => k <> "") (Py.keys (count_by language repos_data)).
Proof.
  cbv zeta.
  assert (H : Forall (fun s => language s <> "") (fst (fetch_all requests_get repos))).
  { apply fetch_loop_Forall; [| constructor].
    intros r. apply or_unknown_nonempty. }
  split; [exact H |]. split; [| split; [| split]].
  - intros r [E | E]; simpl; now rewrite E.
  - intros r [|c s] E Hne; simpl; rewrite E; [contradiction | reflexivity].
  - intros k. rewrite Forall_forall in *. intros s Hs. apply H.
    unfold top_repos in Hs. apply In_slice_to in Hs.
    eapply Permutation_in; [apply sorted_reverse_perm | exact Hs].
  - rewrite count_by_keys. rewrite Forall_forall in *. intros k Hk.
    apply first_seen_In, in_map_iff in Hk. destruct Hk as (s & <- & Hs).
    now apply H.
Qed.

Lemma language_never_empty_sample :
  language (make_snapshot sample_json) = "Unknown".
Proof.
  apply (proj1 (proj2 (language_never_empty sample_service repos_to_track))).
  left. reflexivity.
Defined.

End DashboardFacts.

(* ================================================================== *)
(** ** The runner health check *)
(* ================================================================== *)

Module HealthCheckFacts.

Import HealthCheck.

(** *** The version check *)

(** What the test of line 17 accepts. *)
Lemma check_python_version_true_iff (version : VersionInfo) :
  check_python_version version = true <-> 3 <= major version /\ 7 <= minor version.
Proof.
  unfold check_python_version.
  rewrite andb_true_iff, !Z.leb_le. reflexivity.
Qed.

Lemma version_at_least_3_7_true_iff (version : VersionInfo) :
  version_at_least_3_7 version = true <->
  3 < major version \/ (major version = 3 /\ 7 <= minor version).
Proof.
  unfold version_at_least_3_7.
  rewrite orb_true_iff, andb_true_iff, Z.ltb_lt, Z.eqb_eq, Z.leb_le. reflexivity.
Qed.

(** The test agrees with the comparison of (major, minor) against (3, 7)
    on every version of major at most 3, and on every later one whose
    minor is at least 7. *)
Lemma check_python_version_agrees (version : VersionInfo) :
  major version <= 3 \/ 7 <= minor version ->
  check_python_version version = version_at_least_3_7 version.
Proof.
  intros H. apply eq_true_iff_eq.
  rewrite check_python_version_true_iff, version_at_least_3_7_true_iff. lia.
Qed.

(** C5: the version check at 4.0.0. Line 17 tests the major and the minor
    number separately, so it fails 4.0.0, which is above 3.7 in the order
    on (major, minor); 3.6.0 fails and 3.9.0 passes as the claim says. *)
Theorem check_python_version_rejects_4_0 :
  check_python_version (mkVersion 4 0 0) = false /\
  version_at_least_3_7 (mkVersion 4 0 0) = true /\
  check_python_version (mkVersion 3 6 0) = false /\
  check_python_version (mkVersion 3 9 0) = true.
Proof.
  split.
  - (* 3 <= 4 holds, 7 <= 0 does not *)
    unfold check_python_version. simpl major. simpl minor. reflexivity.
  - split; [unfold version_at_least_3_7; reflexivity |].
    split; reflexivity.
Qed.

(** *** The exit status *)

Lemma tally_loop (bs : list bool) (t : Tally) :
  fold_left tally_check bs t = (fst t + count_true bs, snd t + Py.len bs).
Proof.
  unfold Py.len. revert t.
  induction bs as [|b bs IH]; intros [p n].
  - simpl. f_equal; lia.
  - cbn [fold_left]. rewrite IH. destruct b; cbn [tally_check fst snd count_true List.length];
      f_equal; lia.
Qed.

Lemma count_true_le (bs : list bool) : count_true bs <= Py.len bs.
Proof.
  unfold Py.len. induction bs as [|[] bs IH]; cbn [count_true List.length]; lia.
Qed.

Lemma count_true_all (bs : list bool) :
  count_true bs = Py.len bs <-> Forall (fun b => b = true) bs.
Proof.
  induction bs as [|b bs IH].
  - split; [constructor | reflexivity].
  - pose proof (count_true_le bs) as Hle. unfold Py.len in *.
    cbn [count_true List.length]. rewrite Forall_cons_iff, <- IH.
    destruct b; split; intros H; try split; try reflexivity; try lia.
Qed.

Lemma fold_left_map {X Y S : Type} (f : S -> Y -> S) (g : X -> Y) (l : list X) (s : S) :
  fold_left (fun s x => f s (g x)) l s = fold_left f (map g l) s.
Proof.
  revert s. induction l as [|x l IH]; intros s; simpl; [reflexivity | apply IH].
Qed.

(** The counters of [main] count the results in the order of the script. *)
Lemma tally_all_results (o : Outcomes) :
  tally_all o = (count_true (results o), Py.len (results o)).
Proof.
  transitivity (fold_left tally_check (results o) (0, 0)).
  - unfold tally_all, results.
    cbn [fold_left]. rewrite !fold_left_app, <- !fold_left_map. reflexivity.
  - rewrite tally_loop. reflexivity.
Qed.

Lemma exit_status_count (o : Outcomes) :
  exit_status o = if count_true (results o) =? Py.len (results o) then 0 else 1.
Proof.
  unfold exit_status. rewrite tally_all_results. reflexivity.
Qed.

(** A run in which a check is not passed exits with 1. *)
Lemma exit_status_failed (o : Outcomes) :
  In false (results o) -> exit_status o = 1.
Proof.
  intros Hin. rewrite exit_status_count.
  destruct (Z.eqb_spec (count_true (results o)) (Py.len (results o))) as [E | _];
    [| reflexivity].
  apply count_true_all in E. rewrite Forall_forall in E.
  specialize (E false Hin). discriminate.
Qed.

(** The checks that may raise, counted one after the other: the counters
    of the ones that returned, as long as none has raised. *)
Lemma tally_results_none {X : Type} (f : X -> option bool) (l : list X) :
  fold_left (fun t x => tally_result t (f x)) l None = None.
Proof.
  induction l as [|x l IH]; [reflexivity | exact IH].
Qed.

Lemma tally_results_some {X : Type} (f : X -> option bool) (l : list X) (t : Tally) :
  fold_left (fun t x => tally_result t (f x)) l (Some t) =
  if forallb (fun x => match f x with Some _ => true | None => false end) l
  then Some (fold_left (fun t x => tally_check t (returned_true (f x))) l t)
  else None.
Proof.
  revert t. induction l as [|x l IH]; intros t; [reflexivity |].
  cbn [fold_left forallb tally_result].
  destruct (f x) as [passed |]; cbn [andb returned_true].
  - apply IH.
  - apply tally_results_none.
Qed.

Lemma raised_not_passed {X : Type} (f : X -> option bool) (l : list X) :
  forallb (fun x => match f x with Some _ => true | None => false end) l = false ->
  In false (map (fun x => returned_true (f x)) l).
Proof.
  induction l as [|x l IH]; [discriminate |].
  cbn [forallb map]. destruct (f x) as [passed |]; cbn [andb returned_true].
  - intros H. right. now apply IH.
  - intros _. now left.
Qed.

(** The exit status of the process is the one the outcomes give: when a
    check raises, that check has not returned [True], and both are 1. *)
Lemma main_exit_status (h : Host) : main h = exit_status (run_checks h).
Proof.
  unfold main, main_tally. rewrite tally_results_some.
  destruct (forallb _ required_packages) eqn:Epackages.
  - rewrite tally_results_some.
    destruct (forallb _ required_commands) eqn:Ecommands.
    + reflexivity.
    + symmetry. apply exit_status_failed.
      apply raised_not_passed in Ecommands.
      unfold results, run_checks.
      cbn [python_ok package_ok command_ok disk_ok network_ok].
      right. apply in_or_app. right. apply in_or_app. now left.
  - rewrite tally_results_none. symmetry. apply exit_status_failed.
    apply raised_not_passed in Epackages.
    unfold results, run_checks.
    cbn [python_ok package_ok command_ok disk_ok network_ok].
    right. apply in_or_app. now left.
Qed.

(** C6: for every assignment of outcomes to the individual checks, the
    exit status is 0 exactly when every check passed (the version check,
    each required package, each required command, the disk space and the
    network check), and it is 1 in every other case. [main] exits with this
    status on the outcomes of its checks. *)
Theorem exit_status_zero_iff_all_pass (o : Outcomes) :
  (exit_status o = 0 <->
     python_ok o = true /\
     (forall package, In package required_packages -> package_ok o package = true) /\
     (forall command, In command required_commands -> command_ok o command = true) /\
     disk_ok o = true /\
     network_ok o = true) /\
  (exit_status o <> 0 -> exit_status o = 1) /\
  (forall h, main h = exit_status (run_checks h)).
Proof.
  assert (E : exit_status o = if count_true (results o) =? Py.len (results o) then 0 else 1).
  { unfold exit_status. rewrite tally_all_results. reflexivity. }
  split; [| split; [| intros h; apply main_exit_status]].
  - rewrite E.
    transitivity (Forall (fun b => b = true) (results o)).
    + rewrite <- count_true_all.
      destruct (Z.eqb_spec (count_true (results o)) (Py.len (results o)));
        split; intros; try assumption; try reflexivity; try discriminate; contradiction.
    + unfold results.
      rewrite Forall_cons_iff, !Forall_app, !Forall_map.
      rewrite !Forall_cons_iff, !Forall_nil_iff.
      rewrite 2!Forall_forall. tauto.
  - rewrite E. destruct (count_true (results o) =? Py.len (results o)); congruence.
Qed.

Lemma exit_status_samples :
  exit_status all_pass = 0 /\ exit_status pandas_missing = 1.
Proof.
  split.
  - apply (exit_status_zero_iff_all_pass all_pass). repeat split.
  - apply (exit_status_zero_iff_all_pass pandas_missing). discriminate.
Defined.

End HealthCheckFacts.

(* ================================================================== *)
(** ** The reporting pipeline: tables and charts *)
(* ================================================================== *)

Module DashboardCharts.

Import Py PyFacts PyDictFacts Dashboard DashboardFacts.

(** *** Lists and strings *)

Lemma sum_perm (l l' : list Z) : Permutation l l' -> sum l = sum l'.
Proof.
  induction 1 as [| x l l' _ IH | x y l | l l' l'' _ IH1 _ IH2];
    rewrite ?sum_cons; lia.
Qed.

Lemma combine_fst_snd {X Y : Type} (l : list (X * Y)) :
  combine (map fst l) (map snd l) = l.
Proof.
  induction l as [|[x y] l IH]; simpl; congruence.
Qed.

Lemma StronglySorted_map {X Y : Type} (f : X -> Y) (R : Y -> Y -> Prop) (l : list X) :
  StronglySorted (fun a b => R (f a) (f b)) l -> StronglySorted R (map f l).
Proof.
  induction 1 as [|x l _ IH Hx]; simpl; constructor.
  - exact IH.
  - rewrite Forall_map. exact Hx.
Qed.

Lemma length_append (s1 s2 : string) :
  String.length (String.append s1 s2) = (String.length s1 + String.length s2)%nat.
Proof.
  induction s1 as [|c s1 IH]; simpl; congruence.
Qed.

Lemma length_str_slice_to (k : nat) (s : string) :
  String.length (str_slice_to k s) = Nat.min k (String.length s).
Proof.
  unfold str_slice_to. revert s.
  induction k as [|k IH]; intros [|c s]; simpl; try reflexivity.
  now rewrite IH.
Qed.

Lemma str_slice_to_prefix (k : nat) (s : string) :
  exists tail, s = String.append (str_slice_to k s) tail.
Proof.
  unfold str_slice_to. revert s.
  induction k as [|k IH]; intros [|c s]; simpl.
  - now exists "".
  - now exists (String c s).
  - now exists "".
  - destruct (IH s) as [tail E]. exists tail. congruence.
Qed.

(** *** The frequency tables *)

Lemma first_seen_In_iff (k : string) (labels : list string) :
  In k (first_seen labels) <-> In k labels.
Proof.
  split; [apply first_seen_In |].
  induction labels as [|x l IH]; simpl; [tauto |].
  intros [-> | H]; [now left |].
  destruct (String.eqb_spec k x) as [-> | Hne]; [now left |].
  right. apply filter_In. split; [now apply IH |].
  apply negb_true_iff. now apply String.eqb_neq.
Qed.

Lemma first_seen_length (labels : list string) :
  (List.length (first_seen labels) <= List.length labels)%nat.
Proof.
  induction labels as [|x l IH]; simpl; [lia |].
  pose proof (filter_length_le (fun k' => negb (String.eqb k' x)) (first_seen l)).
  lia.
Qed.

Lemma count_by_NoDup (field : Snapshot -> string) (repos_data : list Snapshot) :
  NoDup (keys (count_by field repos_data)).
Proof.
  rewrite count_by_keys. apply first_seen_NoDup.
Qed.

Lemma count_by_range (field : Snapshot -> string) (repos_data : list Snapshot) :
  Forall (fun c => 1 <= c <= len repos_data) (values (count_by field repos_data)).
Proof.
  unfold values. rewrite Forall_map, Forall_forall. intros [k c] Hin.
  pose proof (count_by_entry field k c repos_data Hin) as ->.
  assert (Hk : In k (map field repos_data)).
  { apply first_seen_In_iff. rewrite <- count_by_keys.
    unfold keys. now apply (in_map fst) in Hin. }
  apply (count_occ_In string_dec) in Hk.
  pose proof (count_occ_bound string_dec k (map field repos_data)) as Hb.
  rewrite length_map in Hb. unfold occurrences, len. simpl. lia.
Qed.

(** For every field and every list, the table the counting loop builds has
    one entry per distinct label: a label is a key exactly when some
    snapshot carries it, no key occurs twice, a look-up returns the number
    of snapshots with that label, every stored count lies between 1 and the
    number of snapshots, and there are no more entries than snapshots. *)
Theorem count_by_table (field : Snapshot -> string) (repos_data : list Snapshot) :
  let d := count_by field repos_data in
  NoDup (keys d) /\
  (forall k, In k (keys d) <-> In k (map field repos_data)) /\
  (forall k, dict_get k d = occurrences k (map field repos_data)) /\
  Forall (fun c => 1 <= c <= len repos_data) (values d) /\
  (List.length d <= List.length repos_data)%nat.
Proof.
  cbv zeta. repeat apply conj.
  - apply count_by_NoDup.
  - intros k. rewrite count_by_keys. apply first_seen_In_iff.
  - intros k. unfold count_by. rewrite count_loop_get. simpl. lia.
  - apply count_by_range.
  - rewrite <- (length_map fst). change (map fst (count_by field repos_data))
      with (keys (count_by field repos_data)).
    rewrite count_by_keys, <- (length_map field repos_data).
    apply first_seen_length.
Qed.

Lemma count_by_sum (field : Snapshot -> string) (repos_data : list Snapshot) :
  sum (values (count_by field repos_data)) = len repos_data.
Proof.
  unfold count_by. now rewrite count_loop_sum.
Qed.

Lemma count_by_nonempty (field : Snapshot -> string) (repo : Snapshot)
    (rest : list Snapshot) :
  count_by field (repo :: rest) <> [].
Proof.
  intros E. apply (f_equal keys) in E. rewrite count_by_keys in E. discriminate.
Qed.

Lemma top_counts_nonempty (k : nat) (d : dict) :
  d <> [] -> top_counts (S k) d <> [].
Proof.
  intros Hd E. unfold top_counts, slice_to, items in E.
  pose proof (Permutation_length (sorted_reverse_perm snd d)) as Hlen.
  destruct (sorted snd true d) as [|e s]; [| discriminate E].
  destruct d; [now apply Hd | discriminate Hlen].
Qed.

Lemma bars_if_any_nonempty (ranking : list (string * Z)) :
  ranking <> [] -> bars_if_any ranking = Some (unzip ranking).
Proof.
  destruct ranking; [contradiction | reflexivity].
Qed.

(** *** The language chart *)

Lemma generate_language_chart_eq (repos_data : list Snapshot) (fs : Files) :
  count_by language repos_data <> [] ->
  generate_language_chart repos_data fs =
  fs ++ [("charts/languages.png",
          LanguagesPng (unzip (sorted snd true (count_by language repos_data))))].
Proof.
  intros Hne. unfold generate_language_chart.
  destruct (count_by language repos_data) as [|e d] eqn:E; [contradiction |].
  unfold write_file, keys, values. now rewrite combine_fst_snd.
Qed.

(** For every non-empty list, [generate_language_chart] adds one file,
    [charts/languages.png], after the files already written. Its bars are
    the distinct languages of the input, each once, with the number of
    snapshots of that language; the counts descend, each is at least 1, and
    they sum to the number of snapshots. *)
Theorem language_chart_bars (repo : Snapshot) (rest : list Snapshot) (fs : Files) :
  let repos_data := repo :: rest in
  exists langs counts,
    generate_language_chart repos_data fs =
      fs ++ [("charts/languages.png", LanguagesPng (langs, counts))] /\
    Permutation langs (first_seen (map language repos_data)) /\
    NoDup langs /\
    List.length langs = List.length counts /\
    StronglySorted (fun a b => b <= a) counts /\
    Forall (fun c => 1 <= c) counts /\
    sum counts = len repos_data /\
    (forall k c, In (k, c) (combine langs counts) ->
                 c = occurrences k (map language repos_data)).
Proof.
  cbv zeta.
  set (l := repo :: rest). set (d := count_by language l).
  pose proof (sorted_reverse_perm snd d) as Hperm.
  pose proof (count_by_NoDup language l) as Hnd.
  pose proof (count_by_range language l) as Hrange.
  fold d in Hnd, Hrange.
  exists (map fst (sorted snd true d)), (map snd (sorted snd true d)).
  repeat apply conj.
  - apply generate_language_chart_eq, count_by_nonempty.
  - rewrite <- (count_by_keys language l). fold d. unfold keys.
    now apply Permutation_map.
  - eapply Permutation_NoDup; [| exact Hnd].
    symmetry. unfold keys. now apply Permutation_map.
  - now rewrite !length_map.
  - apply StronglySorted_map. apply (sorted_reverse_descending snd).
  - eapply Permutation_Forall.
    + symmetry. apply Permutation_map. exact Hperm.
    + eapply Forall_impl; [| exact Hrange]. simpl. intros; lia.
  - rewrite (sum_perm _ (values d)) by (now apply Permutation_map).
    apply count_by_sum.
  - intros k c Hin. rewrite combine_fst_snd in Hin.
    apply (count_by_entry language).
    eapply Permutation_in; [exact Hperm | exact Hin].
Qed.

(** *** The overview chart *)

Lemma short_name_length (repo : Snapshot) :
  (String.length (short_name repo) <= 18)%nat.
Proof.
  unfold short_name.
  destruct (Z.ltb_spec 15 (Z.of_nat (String.length (name repo)))).
  - rewrite length_append, length_str_slice_to.
    pose proof (Nat.le_min_l 15 (String.length (name repo))).
    change (String.length "...") with 3%nat. lia.
  - lia.
Qed.

(** A label of the ranking panel is the name itself when the name has at
    most 15 characters; a longer name is cut to its first 15 characters
    followed by three dots, 18 characters in all. *)
Theorem short_name_cut (repo : Snapshot) :
  let n := String.length (name repo) in
  ((n <= 15)%nat -> short_name repo = name repo) /\
  ((15 < n)%nat ->
     String.length (short_name repo) = 18%nat /\
     exists head tail,
       String.length head = 15%nat /\
       name repo = String.append head tail /\
       short_name repo = String.append head "...") /\
  (String.length (short_name repo) <= 18)%nat.
Proof.
  cbv zeta. unfold short_name.
  destruct (Z.ltb_spec 15 (Z.of_nat (String.length (name repo)))) as [Hlong | Hshort].
  - assert (Hcut : String.length (str_slice_to 15 (name repo)) = 15%nat)
      by (rewrite length_str_slice_to; lia).
    repeat apply conj.
    + intros H. lia.
    + intros _. split.
      * rewrite length_append, Hcut. reflexivity.
      * destruct (str_slice_to_prefix 15 (name repo)) as [tail E].
        exists (str_slice_to 15 (name repo)), tail. auto.
    + rewrite length_append, Hcut. simpl. lia.
  - repeat apply conj; [reflexivity | intros H; lia | lia].
Qed.

Lemma short_name_sample :
  short_name sample_long = "awesome-machine..." /\
  short_name (sample_repo "react" 1) = "react".
Proof.
  split.
  - destruct (short_name_cut sample_long) as (_ & Hlong & _).
    destruct Hlong as (_ & head & tail & Hlen & Hname & ->); [simpl; lia |].
    f_equal. simpl in Hname.
    do 15 (destruct head as [|? head]; [discriminate Hlen |];
           injection Hname as <- Hname).
    destruct head; [reflexivity | discriminate Hlen].
  - apply (short_name_cut (sample_repo "react" 1)). simpl. lia.
Defined.

Lemma generate_overview_chart_eq (repo : Snapshot) (rest : list Snapshot) (fs : Files) :
  let repos_data := repo :: rest in
  generate_overview_chart repos_data fs =
  fs ++ [("charts/overview.png",
          OverviewPng
            {| ax1_hist := map stars repos_data;
               ax2_bar := Some (unzip (top_langs repos_data));
               ax3_barh := (rev (map short_name (top_repos 10 repos_data)),
                            rev (map stars (top_repos 10 repos_data)));
               ax4_bar := Some (unzip (top_owners repos_data)) |})].
Proof.
  cbv zeta. unfold generate_overview_chart, write_file.
  rewrite !bars_if_any_nonempty;
    [reflexivity | apply top_counts_nonempty, count_by_nonempty ..].
Qed.

(** For every non-empty list, [generate_overview_chart] adds one file,
    [charts/overview.png], after the files already written. The histogram
    gets one star count per snapshot; the language panel and the owner
    panel are both drawn, each with between 1 and 8 bars and as many labels
    as values. *)
Theorem overview_chart_panels (repo : Snapshot) (rest : list Snapshot) (fs : Files) :
  let repos_data := repo :: rest in
  exists chart,
    generate_overview_chart repos_data fs =
      fs ++ [("charts/overview.png", OverviewPng chart)] /\
    ax1_hist chart = map stars repos_data /\
    (exists langs counts,
       ax2_bar chart = Some (langs, counts) /\
       List.length langs = List.length counts /\
       (1 <= List.length langs <= 8)%nat) /\
    (exists owners counts,
       ax4_bar chart = Some (owners, counts) /\
       List.length owners = List.length counts /\
       (1 <= List.length owners <= 8)%nat).
Proof.
  cbv zeta. eexists. split; [apply generate_overview_chart_eq |].
  cbn [ax1_hist ax2_bar ax4_bar]. split; [reflexivity |].
  assert (Hbars : forall field,
            (1 <= List.length (top_counts 8 (count_by field (repo :: rest))) <= 8)%nat).
  { intros field.
    pose proof (top_counts_nonempty 7 _ (count_by_nonempty field repo rest)) as Hne.
    unfold top_counts, slice_to in *.
    pose proof (firstn_le_length 8 (sorted snd true (items (count_by field (repo :: rest))))).
    destruct (firstn 8 _); [contradiction | simpl in *; lia]. }
  split; do 2 eexists; (split; [reflexivity |]); rewrite !length_map;
    (split; [reflexivity | apply Hbars]).
Qed.

(** The ranking panel of the overview chart, for every non-empty list: it
    has [min 10 (number of snapshots)] bars, as many labels as values; no
    label is longer than 18 characters; the values ascend, so the bars are
    drawn from the fewest stars to the most; and the last bar belongs to a
    snapshot of the input that no other snapshot exceeds in stars. *)
Theorem overview_ranking_bars (repo : Snapshot) (rest : list Snapshot) (fs : Files) :
  let repos_data := repo :: rest in
  exists chart,
    generate_overview_chart repos_data fs =
      fs ++ [("charts/overview.png", OverviewPng chart)] /\
    let '(names, values) := ax3_barh chart in
    List.length names = Nat.min 10 (List.length repos_data) /\
    List.length values = List.length names /\
    Forall (fun label => (String.length label <= 18)%nat) names /\
    StronglySorted Z.le values /\
    exists best,
      In best repos_data /\
      (forall r, In r repos_data -> stars r <= stars best) /\
      last values 0 = stars best /\
      last names "" = short_name best.
Proof.
  cbv zeta. eexists. split; [apply generate_overview_chart_eq |].
  cbn [ax3_barh].
  set (l := repo :: rest). set (top := top_repos 10 l).
  assert (Hlen : List.length top = Nat.min 10 (List.length l))
    by apply (slice_to_length stars).
  repeat apply conj.
  - now rewrite length_rev, length_map.
  - now rewrite !length_rev, !length_map.
  - apply Forall_rev. rewrite Forall_map, Forall_forall.
    intros r _. apply short_name_length.
  - apply (StronglySorted_rev (fun a b => b <= a)).
    apply StronglySorted_map.
    apply StronglySorted_firstn, (sorted_reverse_descending stars).
  - destruct (slice_sorted_split stars 10 l) as (cut & Hperm & Hdom).
    pose proof (StronglySorted_firstn _ 10 _ (sorted_reverse_descending stars l)) as Hdesc.
    fold (slice_to 10 (sorted stars true l)) in Hdesc.
    change (slice_to 10 (sorted stars true l)) with top in Hperm, Hdom, Hdesc.
    destruct top as [|best top'] eqn:Etop; [simpl in Hlen; subst l; simpl in Hlen; lia |].
    exists best. repeat apply conj.
    + eapply Permutation_in; [exact Hperm | now left].
    + intros r Hr.
      apply (Permutation_in _ (Permutation_sym Hperm)) in Hr.
      apply in_app_or in Hr as [[<- | Hr] | Hr].
      * lia.
      * apply StronglySorted_inv in Hdesc as [_ Hall].
        rewrite Forall_forall in Hall. now apply Hall.
      * apply Hdom; [now left | assumption].
    + simpl. apply last_last.
    + simpl. apply last_last.
Qed.

(** The two charts agree on the languages: the language panel of the
    overview chart shows the first eight bars of the language chart. *)
Theorem overview_languages_prefix (repo : Snapshot) (rest : list Snapshot)
    (fs fs' : Files) :
  let repos_data := repo :: rest in
  exists chart langs counts,
    generate_overview_chart repos_data fs =
      fs ++ [("charts/overview.png", OverviewPng chart)] /\
    generate_language_chart repos_data fs' =
      fs' ++ [("charts/languages.png", LanguagesPng (langs, counts))] /\
    ax2_bar chart = Some (firstn 8 langs, firstn 8 counts).
Proof.
  cbv zeta. do 3 eexists. split; [apply generate_overview_chart_eq |].
  split; [apply generate_language_chart_eq, count_by_nonempty |].
  cbn [ax2_bar]. unfold top_langs, top_counts, slice_to, items, unzip.
  now rewrite !firstn_map.
Qed.

End DashboardCharts.

(* ================================================================== *)
(** ** The reporting pipeline: the run as a whole *)
(* ================================================================== *)

Module DashboardRun.

Import Py PyFacts PyDictFacts Dashboard DashboardFacts DashboardCharts.

(** *** The Fetcher, batch by batch *)

Section FetchLog.

Variable requests_get : string -> HttpResult.

Lemma fetch_step_reports (st : FetchState) (repo_name : string) :
  success requests_get repo_name = None ->
  exists line,
    fetch_step requests_get st repo_name = (fst st, snd st ++ [line]) /\
    FailureReport repo_name (requests_get (repo_url repo_name)) line.
Proof.
  unfold success, fetch_step. destruct st as [acc out]. simpl.
  destruct (requests_get (repo_url repo_name)) as [code [r | e] | e].
  - destruct (Z.eqb_spec code 200) as [-> | Hne]; [discriminate |]. intros _.
    eexists. split; [reflexivity | now constructor].
  - intros _. destruct (Z.eqb_spec code 200) as [-> | Hne];
      eexists; (split; [reflexivity | now constructor]).
  - intros _. eexists. split; [reflexivity | constructor].
Qed.

(** A turn adds to any state what it adds to the empty one. *)
Lemma fetch_step_from (st : FetchState) (r : string) :
  fetch_step requests_get st r =
  (fst st ++ fst (fetch_step requests_get ([], []) r),
   snd st ++ snd (fetch_step requests_get ([], []) r)).
Proof.
  unfold fetch_step. destruct st as [acc out].
  destruct (requests_get (repo_url r)) as [code [d | e] | e];
    try destruct (code =? 200); cbn [fst snd app]; now rewrite ?app_nil_r.
Qed.

(** The loop from any state adds what the loop from the empty state
    returns. *)
Lemma fetch_loop_from (repos : list string) (st : FetchState) :
  fold_left (fetch_step requests_get) repos st =
  (fst st ++ fst (fetch_all requests_get repos),
   snd st ++ snd (fetch_all requests_get repos)).
Proof.
  unfold fetch_all. revert st.
  induction repos as [|r repos IH]; intros st.
  - destruct st. simpl. now rewrite !app_nil_r.
  - cbn [fold_left].
    rewrite (IH (fetch_step requests_get st r)).
    rewrite (IH (fetch_step requests_get ([], []) r)).
    rewrite (fetch_step_from st r). cbn [fst snd].
    now rewrite <- !app_assoc.
Qed.

(** Fetching a list in two batches gives the snapshots of the first batch
    followed by those of the second, and the printed lines likewise: a
    request has no effect on the turns after it. *)
Theorem fetch_all_app (batch1 batch2 : list string) :
  fetch_all requests_get (batch1 ++ batch2) =
  (fst (fetch_all requests_get batch1) ++ fst (fetch_all requests_get batch2),
   snd (fetch_all requests_get batch1) ++ snd (fetch_all requests_get batch2)).
Proof.
  unfold fetch_all at 1. rewrite fold_left_app.
  apply fetch_loop_from.
Qed.

(** The lines the Fetcher prints are the reports of the failed identifiers,
    one line each, in the order of the input, and each line is the one its
    failure calls for: a response with a status other than 200 prints
    "Failed to get data for", the identifier and that status; an exception,
    raised by the request or while reading a 200 response, prints
    "Error processing", the identifier and the message of that exception. *)
Theorem fetch_all_reports_failures (repos : list string) :
  Forall2 (fun repo_name line =>
             FailureReport repo_name (requests_get (repo_url repo_name)) line)
          (filter (failed requests_get) repos)
          (snd (fetch_all requests_get repos)).
Proof.
  induction repos as [|r repos IH].
  - constructor.
  - unfold fetch_all at 1. cbn [fold_left].
    rewrite fetch_loop_from. cbn [snd filter]. unfold failed at 1.
    destruct (success requests_get r) as [repo_data |] eqn:E.
    + rewrite (fetch_step_success requests_get _ r repo_data E). exact IH.
    + destruct (fetch_step_reports ([], []) r E) as (line & -> & Hline).
      cbn [snd app]. now constructor.
Qed.

Lemma fetched_length (repos : list string) :
  List.length (fst (fetch_all requests_get repos)) =
  List.length (filter (fun r => negb (failed requests_get r)) repos).
Proof.
  pose proof (fetch_loop_snapshots requests_get repos ([], [])) as H.
  apply (f_equal (@List.length _)) in H.
  cbn [fst map app] in H. now rewrite !length_map in H.
Qed.


End FetchLog.

(** *** The tables of a run *)

(** Whatever the service answers, a run fetches at most 8 snapshots, so the
    cut at 10 drops nothing: the table of the HTML page (and the ranking
    panel of the chart) lists every fetched snapshot once, and the table of
    the README is its first five rows. *)
Theorem tables_of_a_run (requests_get : string -> HttpResult) :
  let repos_data := fst (get_github_data requests_get) in
  (List.length repos_data <= 8)%nat /\
  Permutation (top_repos 10 repos_data) repos_data /\
  top_repos 5 repos_data = firstn 5 (top_repos 10 repos_data).
Proof.
  cbv zeta. unfold get_github_data.
  assert (Hlen : (List.length (fst (fetch_all requests_get repos_to_track)) <= 8)%nat).
  { rewrite fetched_length.
    apply (filter_length_le (fun r => negb (failed requests_get r)) repos_to_track). }
  split; [exact Hlen |]. unfold top_repos, slice_to. split.
  - rewrite firstn_all2.
    + apply sorted_reverse_perm.
    + rewrite (Permutation_length (sorted_reverse_perm stars _)). lia.
  - now rewrite firstn_firstn.
Qed.

(** *** The average *)

Lemma sum_map_bounds {X : Type} (f : X -> Z) (lo hi : Z) (l : list X) :
  (forall x, In x l -> lo <= f x <= hi) ->
  lo * len l <= sum (map f l) <= hi * len l.
Proof.
  unfold len. induction l as [|x l IH]; intros H.
  - simpl. rewrite sum_nil. lia.
  - cbn [map List.length]. rewrite sum_cons.
    specialize (H x (or_introl eq_refl)) as Hx.
    assert (IH' : lo * Z.of_nat (List.length l) <= sum (map f l)
                  <= hi * Z.of_nat (List.length l))
      by (apply IH; intros y Hy; apply H; now right).
    lia.
Qed.

(** When every snapshot of a non-empty list has between [lo] and [hi]
    stars, so has the average both documents show. *)
Theorem average_between_bounds (repos_data : list Snapshot) (lo hi : Z) :
  repos_data <> [] ->
  (forall repo, In repo repos_data -> lo <= stars repo <= hi) ->
  exists avg,
    readme_avg_stars repos_data = Some avg /\
    html_avg_stars repos_data = Some avg /\
    lo <= avg <= hi.
Proof.
  intros Hne Hall.
  assert (Hpos : 0 < len repos_data)
    by (unfold len; destruct repos_data; [contradiction | simpl; lia]).
  pose proof (sum_map_bounds stars lo hi repos_data Hall) as [Hlo Hhi].
  exists (sum (map stars repos_data) / len repos_data).
  rewrite readme_avg_stars_eq, html_avg_stars_eq.
  rewrite (proj2 (Z.eqb_neq _ 0)) by lia.
  repeat split.
  - apply Z.div_le_lower_bound; [assumption | lia].
  - apply Z.div_le_upper_bound; [assumption | lia].
Qed.

Lemma average_between_bounds_sample :
  exists avg, readme_avg_stars sample_three = Some avg /\ 50 <= avg <= 200.
Proof.
  destruct (average_between_bounds sample_three 50 200) as (avg & H & _ & Hb).
  - discriminate.
  - intros repo [<- | [<- | [<- | []]]]; simpl; lia.
  - now exists avg.
Defined.

(** *** [main] *)



End DashboardRun.

(* ================================================================== *)
(** ** The runner health check: the run on a host *)
(* ================================================================== *)

Module HealthCheckRun.

Import HealthCheck HealthCheckFacts.

Lemma count_true_nonneg (bs : list bool) : 0 <= count_true bs.
Proof.
  induction bs as [|[] bs IH]; cbn [count_true]; lia.
Qed.

(** The counters after all checks: [total_checks] is 9 whatever the
    outcomes, so a failing check never keeps a later one from running, and
    [checks_passed] is the number of checks that passed, between 0 and 9. *)
Theorem tally_counts_every_check (o : Outcomes) :
  let '(checks_passed, total_checks) := tally_all o in
  total_checks = 9 /\
  checks_passed = count_true (results o) /\
  0 <= checks_passed <= 9.
Proof.
  rewrite tally_all_results.
  pose proof (count_true_nonneg (results o)).
  pose proof (count_true_le (results o)) as Hle.
  change (Py.len (results o)) with 9 in *.
  repeat split; assumption.
Qed.







Lemma check_python_version_agrees_sample :
  check_python_version (mkVersion 3 11 4) = version_at_least_3_7 (mkVersion 3 11 4) /\
  check_python_version (mkVersion 2 7 18) = version_at_least_3_7 (mkVersion 2 7 18).
Proof.
  split; apply check_python_version_agrees; simpl; lia.
Defined.

End HealthCheckRun.
